(** * The Gumroad proxy handler (api/gumroad.js), embedded and verified

    The repository holds three variants of one Vercel serverless function,
    each exporting [handler(request, response)]:

    - [src/api/gumroad.js]   : product call only, one-hour cache advice;
    - [src/unnamed/part_001] : product and reviews calls, both must succeed;
    - [src/unnamed/part_000] : product and reviews calls, a reviews 404 is an
      empty list, rating and permalink have defaults.

    Each variant is embedded in its own module over a shared model of the
    JavaScript values and effects the handlers use. *)

From Stdlib Require Import String Ascii ZArith List Bool Lia DecimalString PrimFloat.
Import ListNotations.
Open Scope string_scope.
Open Scope Z_scope.

(** ** JavaScript values and the operations the handlers apply to them *)

Module JS.

(** A value as [JSON.parse] builds it, plus [undefined], which property
    reads produce.  An object keeps its properties in order, since the
    order is visible once the value is serialised again. *)
#[warnings="-register-all"] Inductive value : Type :=
| VUndefined
| VNull
| VBool (b : bool)
| VNum (x : float)
| VStr (s : string)
| VArr (items : list value)
| VObj (props : list (string * value)).

(** A thrown [Error]; only its [message] is ever read (in the catch block). *)
Record JsError : Type := Error { message : string }.

Definition Result (A : Type) : Type := (JsError + A)%type.

(** Sequencing of steps that may throw. *)
Definition and_then {A B : Type} (r : Result A) (k : A -> Result B) : Result B :=
  match r with
  | inl e => inl e
  | inr a => k a
  end.

(** What the source leaves to the JavaScript engine and to the hosting
    platform: the JSON parser behind [Response.json()], the serialiser
    behind [response.json(obj)], the text of the engine's own [TypeError]s,
    the numeric parsing and string conversion inside [parseFloat], and the
    values of the Content-Type and ETag headers that [response.json(obj)]
    writes, given the header the response carried before and, for the
    ETag, the bytes of the body. *)
Record Engine : Type := {
  JSON_parse : string -> string + value;      (* inl: the SyntaxError's message *)
  JSON_stringify : value -> string;
  cannot_read : value -> string -> string;    (* reading a property of undefined/null *)
  not_a_function : string -> string;          (* calling something that is no function *)
  parseFloat_string : string -> float;        (* parseFloat on a string primitive *)
  parseFloat_object : value -> string + float;(* parseFloat on an array or object:
                                                 ToPrimitive may throw *)
  json_content_type : option string -> string;
  json_etag : option string -> string -> string
}.

(** ToBoolean. *)
Definition truthy (v : value) : bool :=
  match v with
  | VUndefined | VNull => false
  | VBool b => b
  | VNum x => negb (PrimFloat.is_zero x || PrimFloat.is_nan x)
  | VStr s => negb (s =? "")%string
  | VArr _ | VObj _ => true
  end.

(** [a || b]. *)
Definition or_else (a b : value) : value := if truthy a then a else b.

Definition nullish (v : value) : bool :=
  match v with
  | VUndefined | VNull => true
  | _ => false
  end.

Fixpoint lookup (k : string) (props : list (string * value)) : value :=
  match props with
  | [] => VUndefined
  | (k', v) :: rest => if (k =? k')%string then v else lookup k rest
  end.

(** An own property of a value that is neither [undefined] nor [null].
    The handlers read [product], [sales_count], [rating], [average_rating],
    [count], [formatted_price], [permalink], [reviews], [user_name] and
    [review_content]; no prototype defines any of them, so a primitive or
    an array answers [undefined]. *)
Definition own (base : value) (k : string) : value :=
  match base with
  | VObj props => lookup k props
  | _ => VUndefined
  end.

(** [base.k]: a TypeError on [undefined] and [null]. *)
Definition member (E : Engine) (base : value) (k : string) : Result value :=
  match base with
  | VUndefined | VNull => inl (Error (cannot_read E base k))
  | _ => inr (own base k)
  end.

(** [base?.k]. *)
Definition optional_member (E : Engine) (base : value) (k : string) : Result value :=
  if nullish base then inr VUndefined else member E base k.

(** [parseFloat(v)].  On a number, ToString followed by the numeric parse
    gives the number back, except that -0 prints as "0". *)
Definition parseFloat (E : Engine) (v : value) : Result value :=
  match v with
  | VNum x => inr (VNum (if PrimFloat.is_zero x then 0%float else x))
  | VStr s => inr (VNum (parseFloat_string E s))
  | VUndefined | VNull | VBool _ => inr (VNum PrimFloat.nan)
  | VArr _ | VObj _ =>
      match parseFloat_object E v with
      | inl msg => inl (Error msg)
      | inr x => inr (VNum x)
      end
  end.

(** The character class [a-zA-Z0-9].  A string is held as its UTF-8 bytes;
    every byte of a non-ASCII character is outside the class, as the
    character itself is, so filtering bytes and filtering characters agree. *)
Definition alphanumeric (c : ascii) : bool :=
  let n := N_of_ascii c in
  ((97 <=? n) && (n <=? 122) || (65 <=? n) && (n <=? 90) || (48 <=? n) && (n <=? 57))%N.

(** [s.replace(/[^a-zA-Z0-9]/g, '')] on a string primitive. *)
Fixpoint replace_non_alphanumeric (s : string) : string :=
  match s with
  | EmptyString => EmptyString
  | String c rest =>
      if alphanumeric c then String c (replace_non_alphanumeric rest)
      else replace_non_alphanumeric rest
  end.

(** The method call [v.replace(/[^a-zA-Z0-9]/g, '')] on a parsed value:
    only a string has the method. *)
Definition replace_call (E : Engine) (v : value) : Result value :=
  match v with
  | VUndefined | VNull => inl (Error (cannot_read E v "replace"))
  | VStr s => inr (VStr (replace_non_alphanumeric s))
  | _ => inl (Error (not_a_function E "review.user_name.replace"))
  end.

(** [items.map(f)] where [f] may throw: the first throw ends the loop. *)
Fixpoint map_result {A B : Type} (f : A -> Result B) (items : list A) : Result (list B) :=
  match items with
  | [] => inr []
  | x :: rest =>
      match f x with
      | inl e => inl e
      | inr y =>
          match map_result f rest with
          | inl e => inl e
          | inr ys => inr (y :: ys)
          end
      end
  end.

(** The method call [v.map(f)] on a parsed value: only an array has it. *)
Definition map_call (E : Engine) (v : value) (f : value -> Result value) : Result value :=
  match v with
  | VUndefined | VNull => inl (Error (cannot_read E v "map"))
  | VArr items =>
      match map_result f items with
      | inl e => inl e
      | inr out => inr (VArr out)
      end
  | _ => inl (Error (not_a_function E "reviewsData.reviews.map"))
  end.

(** ToString of an integer, as a template literal applies it to
    [Response.status]. *)
Definition number_to_string (n : Z) : string := NilZero.string_of_int (Z.to_int n).

End JS.

(** ** The platform: environment, outbound fetch, the response object *)

Module Platform.
Import JS.

(** A [fetch] [Response]: the status line and the body. *)
Record Response : Type := { status : Z; body : string }.

(** [Response.ok]: the status is in the range 200-299. *)
Definition ok (r : Response) : bool := (200 <=? status r) && (status r <=? 299).

(** How the promise a [fetch] returns settles. *)
Inductive Outcome : Type :=
| Resolved (r : Response)
| Rejected (e : JsError).

Definition Headers : Type := list (string * string).

Inductive Side : Type := ProductFirst | ReviewsFirst.

(** What one invocation can observe of the world: [process.env], the
    network's answer to each outbound call, and which of two concurrent
    calls settles first. *)
Record World : Type := {
  env : string -> option string;
  network : string -> Headers -> Outcome;
  settles_first : Side
}.

(** The inbound request; the handlers never read it. *)
Record Request : Type := { method : string; url : string; payload : string }.

(** The outbound response object.  Header names are case-insensitive and
    kept in lower case. *)
Record ServerResponse : Type := {
  headers : Headers;
  statusCode : Z;
  sent : option value
}.

Inductive Event : Type :=
| Fetch (url : string) (hs : Headers)
| ConsoleLog (args : list string)
| ConsoleError (args : list string).

Record State : Type := { response : ServerResponse; trace : list Event }.

(** [process.env.NAME] used as a condition or as the left of [||]: unset
    and empty are both falsy. *)
Definition env_truthy (v : option string) : bool :=
  match v with
  | Some s => negb (s =? "")%string
  | None => false
  end.

(** [process.env.NAME || fallback]. *)
Definition env_or (v : option string) (fallback : string) : string :=
  match v with
  | Some s => if (s =? "")%string then fallback else s
  | None => fallback
  end.

(** A variable interpolated into a template literal. *)
Definition env_text (v : option string) : string :=
  match v with
  | Some s => s
  | None => "undefined"
  end.

Definition lower (c : ascii) : ascii :=
  let n := N_of_ascii c in
  if ((65 <=? n) && (n <=? 90))%N then ascii_of_N (n + 32) else c.

Fixpoint lowercase (s : string) : string :=
  match s with
  | EmptyString => EmptyString
  | String c rest => String (lower c) (lowercase rest)
  end.

Fixpoint header_lookup (name : string) (hs : Headers) : option string :=
  match hs with
  | [] => None
  | (n, v) :: rest => if (n =? name)%string then Some v else header_lookup name rest
  end.

Definition getHeader (r : ServerResponse) (name : string) : option string :=
  header_lookup (lowercase name) (headers r).

Definition header_remove (name : string) (hs : Headers) : Headers :=
  filter (fun nv => negb (fst nv =? name)%string) hs.

(** ** The monad of a handler body: state, and exceptions for [throw] *)

Definition M (A : Type) : Type := State -> Result A * State.

Definition ret {A : Type} (a : A) : M A := fun s => (inr a, s).

Definition bind {A B : Type} (m : M A) (k : A -> M B) : M B :=
  fun s =>
    match m s with
    | (inl e, s') => (inl e, s')
    | (inr a, s') => k a s'
    end.

Definition throw {A : Type} (e : JsError) : M A := fun s => (inl e, s).

(** [try { body } catch (error) { handle }]. *)
Definition try_catch {A : Type} (body : M A) (handle : JsError -> M A) : M A :=
  fun s =>
    match body s with
    | (inl e, s') => handle e s'
    | (inr a, s') => (inr a, s')
    end.

Definition lift {A : Type} (r : Result A) : M A := fun s => (r, s).

Definition emit (ev : Event) : M unit :=
  fun s => (inr tt, {| response := response s; trace := trace s ++ [ev] |}).

Definition update (f : ServerResponse -> ServerResponse) : M unit :=
  fun s => (inr tt, {| response := f (response s); trace := trace s |}).

Definition console_error (args : list string) : M unit := emit (ConsoleError args).
Definition console_log (args : list string) : M unit := emit (ConsoleLog args).

(** [fetch(url, { headers })]: the call is issued, its promise settles later. *)
Definition fetch (w : World) (url : string) (hs : Headers) : M Outcome :=
  fun s => (inr (network w url hs), {| response := response s; trace := trace s ++ [Fetch url hs] |}).

(** [await p]. *)
Definition await (o : Outcome) : M Response :=
  match o with
  | Resolved r => ret r
  | Rejected e => throw e
  end.

(** [await Promise.all([p, q])]: both results once both have resolved, and
    otherwise the reason of whichever rejection comes first. *)
Definition await_all (w : World) (p q : Outcome) : M (Response * Response) :=
  match p, q with
  | Resolved a, Resolved b => ret (a, b)
  | Rejected e, Resolved _ => throw e
  | Resolved _, Rejected e => throw e
  | Rejected e1, Rejected e2 =>
      match settles_first w with
      | ProductFirst => throw e1
      | ReviewsFirst => throw e2
      end
  end.

(** [res.text()] and [res.json()]. *)
Definition text (r : Response) : M string := ret (body r).

Definition json (E : Engine) (r : Response) : M value :=
  match JSON_parse E (body r) with
  | inl msg => throw (Error msg)
  | inr v => ret v
  end.

(** [response.setHeader(name, value)] replaces any header of that name. *)
Definition setHeader (name value : string) : M unit :=
  update (fun r =>
    {| headers := (lowercase name, value) :: header_remove (lowercase name) (headers r);
       statusCode := statusCode r;
       sent := sent r |}).

(** The headers after [response.json(obj)]: the platform serialises the
    object and writes Content-Type, Content-Length (the number of bytes of
    the body) and ETag; it touches no other header. *)
Definition set_header (name value : string) (hs : Headers) : Headers :=
  (name, value) :: header_remove name hs.

Definition json_headers (E : Engine) (hs : Headers) (obj : value) : Headers :=
  let bytes := JSON_stringify E obj in
  let typed :=
    set_header "content-type" (json_content_type E (header_lookup "content-type" hs)) hs in
  let sized :=
    set_header "content-length" (number_to_string (Z.of_nat (String.length bytes))) typed in
  set_header "etag" (json_etag E (header_lookup "etag" sized) bytes) sized.

(** The names of the headers that [response.json(obj)] writes. *)
Definition written_by_json (name : string) : bool :=
  existsb (String.eqb name) ["content-type"; "content-length"; "etag"].

(** [response.status(code).json(obj)]. *)
Definition status_json (E : Engine) (code : Z) (obj : value) : M unit :=
  update (fun r =>
    {| headers := json_headers E (headers r) obj; statusCode := code; sent := Some obj |}).

(** The state a handler starts in, and what it leaves behind. *)
Definition start (r : ServerResponse) : State := {| response := r; trace := [] |}.

Definition run (h : M unit) (r : ServerResponse) : State := snd (h (start r)).

(** The bytes that go on the wire for the body. *)
Definition sent_bytes (E : Engine) (s : State) : option string :=
  option_map (JSON_stringify E) (sent (response s)).

Definition is_fetch (ev : Event) : bool :=
  match ev with
  | Fetch _ _ => true
  | _ => false
  end.

(** The outbound calls issued, in order. *)
Definition outbound (s : State) : list Event := filter is_fetch (trace s).

(** The error body's [details] field, when the body has one. *)
Definition details (s : State) : option string :=
  match sent (response s) with
  | Some (VObj props) =>
      match lookup "details" props with
      | VStr d => Some d
      | _ => None
      end
  | _ => None
  end.

(** A field of the body that was sent ([undefined] when nothing was). *)
Definition field (s : State) (k : string) : value :=
  match sent (response s) with
  | Some (VObj props) => lookup k props
  | _ => VUndefined
  end.

End Platform.

Declare Scope js_scope.
Delimit Scope js_scope with js.
Notation "x <-- r ;; k" := (JS.and_then r (fun x => k))
  (at level 61, r at next level, right associativity) : js_scope.
Notation "x <- m ;; k" := (Platform.bind m (fun x => k))
  (at level 61, m at next level, right associativity) : js_scope.
Notation "m ;;; k" := (Platform.bind m (fun _ => k))
  (at level 61, right associativity) : js_scope.
Notation "' ( a , b ) <- m ;; k" := (Platform.bind m (fun ab => let '(a, b) := ab in k))
  (at level 61, m at next level, right associativity) : js_scope.

(** ** src/unnamed/part_000: product and reviews, with the defensive defaults *)

Module Part000.
Import JS Platform.
Local Open Scope js_scope.

Section Handler.
Variable E : Engine.
Variable w : World.

Definition GUMROAD_ACCESS_TOKEN : option string := env w "GUMROAD_ACCESS_TOKEN".
Definition PRODUCT_ID : string := env_or (env w "GUMROAD_PRODUCT_ID") "rdcvzn".

Definition productUrl : string := "https://api.gumroad.com/v2/products/" ++ PRODUCT_ID.
Definition reviewsUrl : string :=
  "https://api.gumroad.com/v2/products/" ++ PRODUCT_ID ++ "/reviews".

Definition apiHeaders : Headers :=
  [("Authorization", "Bearer " ++ env_text GUMROAD_ACCESS_TOKEN)].

(** The callback of [reviewsData.reviews.map]. *)
Definition review_entry (review : value) : Result value :=
  name <-- member E review "user_name" ;;
  rating <-- member E review "rating" ;;
  content <-- member E review "review_content" ;;
  user_name <-- member E review "user_name" ;;
  avatar_id <-- replace_call E user_name ;;
  inr (VObj [("name", name); ("rating", rating); ("content", content);
             ("avatar_id", avatar_id)]).

(** The object literal of step 5, its properties evaluated in order. *)
Definition responseData (productData reviewsData : value) : Result value :=
  p1 <-- member E productData "product" ;;
  sales_count <-- member E p1 "sales_count" ;;
  p2 <-- member E productData "product" ;;
  r2 <-- member E p2 "rating" ;;
  average_rating <-- optional_member E r2 "average_rating" ;;
  rating_average <-- parseFloat E (or_else average_rating (VNum 0)) ;;
  p3 <-- member E productData "product" ;;
  r3 <-- member E p3 "rating" ;;
  count <-- optional_member E r3 "count" ;;
  p4 <-- member E productData "product" ;;
  formatted_price <-- member E p4 "formatted_price" ;;
  p5 <-- member E productData "product" ;;
  permalink <-- member E p5 "permalink" ;;
  rows <-- member E reviewsData "reviews" ;;
  reviews <-- map_call E rows review_entry ;;
  inr (VObj [("sales_count", sales_count);
             ("rating_average", rating_average);
             ("rating_count", or_else count (VNum 0));
             ("formatted_price", formatted_price);
             ("permalink", or_else permalink (VStr "rdcvzn"));
             ("reviews", reviews)]).

Definition handler (request : Request) : M unit :=
  try_catch
    ((if negb (env_truthy GUMROAD_ACCESS_TOKEN)
      then console_error ["GUMROAD_ACCESS_TOKEN environment variable is not set."] ;;;
           throw (Error "Server configuration error: Missing API token.")
      else ret tt) ;;;
     p <- fetch w productUrl apiHeaders ;;
     q <- fetch w reviewsUrl apiHeaders ;;
     '(productRes, reviewsRes) <- await_all w p q ;;
     (if negb (ok productRes)
      then errorBody <- text productRes ;;
           throw (Error ("Gumroad Product API responded with status "
                         ++ number_to_string (status productRes)
                         ++ ". Details: " ++ errorBody))
      else ret tt) ;;;
     reviewsData <-
       (if ok reviewsRes then json E reviewsRes
        else if status reviewsRes =? 404
        then console_log ["Gumroad reviews returned 404. This is normal if there are no reviews yet. Proceeding with an empty list."] ;;;
             ret (VObj [("success", VBool true); ("reviews", VArr [])])
        else errorBody <- text reviewsRes ;;
             throw (Error ("Gumroad Reviews API responded with status "
                           ++ number_to_string (status reviewsRes)
                           ++ ". Details: " ++ errorBody))) ;;
     productData <- json E productRes ;;
     data <- lift (responseData productData reviewsData) ;;
     setHeader "Cache-Control" "s-maxage=900, stale-while-revalidate" ;;;
     status_json E 200 data)
    (fun error =>
       console_error ["Error in Vercel function:"; message error] ;;;
       status_json E 500
         (VObj [("error", VStr "An internal server error occurred while fetching Gumroad data.");
                ("details", VStr (message error))])).

(** An execution in which the credential is configured, and in which the
    product call, respectively the reviews call, returns a response. *)
Definition configured : Prop := env_truthy GUMROAD_ACCESS_TOKEN = true.
Definition product_returns (productRes : Response) : Prop :=
  network w productUrl apiHeaders = Resolved productRes.
Definition reviews_returns (reviewsRes : Response) : Prop :=
  network w reviewsUrl apiHeaders = Resolved reviewsRes.

End Handler.
End Part000.

(** ** src/unnamed/part_001: product and reviews, both calls must succeed *)

Module Part001.
Import JS Platform.
Local Open Scope js_scope.

Section Handler.
Variable E : Engine.
Variable w : World.

Definition GUMROAD_ACCESS_TOKEN : option string := env w "GUMROAD_ACCESS_TOKEN".
Definition PRODUCT_ID : string := env_or (env w "GUMROAD_PRODUCT_ID") "rdcvzn".

Definition productUrl : string := "https://api.gumroad.com/v2/products/" ++ PRODUCT_ID.
Definition reviewsUrl : string :=
  "https://api.gumroad.com/v2/products/" ++ PRODUCT_ID ++ "/reviews".

Definition apiHeaders : Headers :=
  [("Authorization", "Bearer " ++ env_text GUMROAD_ACCESS_TOKEN)].

Definition review_entry (review : value) : Result value :=
  name <-- member E review "user_name" ;;
  rating <-- member E review "rating" ;;
  content <-- member E review "review_content" ;;
  user_name <-- member E review "user_name" ;;
  avatar_id <-- replace_call E user_name ;;
  inr (VObj [("name", name); ("rating", rating); ("content", content);
             ("avatar_id", avatar_id)]).

Definition responseData (productData reviewsData : value) : Result value :=
  p1 <-- member E productData "product" ;;
  sales_count <-- member E p1 "sales_count" ;;
  p2 <-- member E productData "product" ;;
  r2 <-- member E p2 "rating" ;;
  average_rating <-- member E r2 "average_rating" ;;
  rating_average <-- parseFloat E average_rating ;;
  p3 <-- member E productData "product" ;;
  r3 <-- member E p3 "rating" ;;
  rating_count <-- member E r3 "count" ;;
  p4 <-- member E productData "product" ;;
  formatted_price <-- member E p4 "formatted_price" ;;
  p5 <-- member E productData "product" ;;
  permalink <-- member E p5 "permalink" ;;
  rows <-- member E reviewsData "reviews" ;;
  reviews <-- map_call E rows review_entry ;;
  inr (VObj [("sales_count", sales_count);
             ("rating_average", rating_average);
             ("rating_count", rating_count);
             ("formatted_price", formatted_price);
             ("permalink", permalink);
             ("reviews", reviews)]).

Definition handler (request : Request) : M unit :=
  try_catch
    ((if negb (env_truthy GUMROAD_ACCESS_TOKEN)
      then console_error ["GUMROAD_ACCESS_TOKEN environment variable is not set."] ;;;
           throw (Error "Server configuration error: Missing API token.")
      else ret tt) ;;;
     p <- fetch w productUrl apiHeaders ;;
     q <- fetch w reviewsUrl apiHeaders ;;
     '(productRes, reviewsRes) <- await_all w p q ;;
     (if negb (ok productRes)
      then errorBody <- text productRes ;;
           throw (Error ("Gumroad Product API responded with status "
                         ++ number_to_string (status productRes)
                         ++ ". Details: " ++ errorBody))
      else ret tt) ;;;
     (if negb (ok reviewsRes)
      then errorBody <- text reviewsRes ;;
           throw (Error ("Gumroad Reviews API responded with status "
                         ++ number_to_string (status reviewsRes)
                         ++ ". Details: " ++ errorBody))
      else ret tt) ;;;
     productData <- json E productRes ;;
     reviewsData <- json E reviewsRes ;;
     data <- lift (responseData productData reviewsData) ;;
     setHeader "Cache-Control" "s-maxage=900, stale-while-revalidate" ;;;
     status_json E 200 data)
    (fun error =>
       console_error ["Error in Vercel function:"; message error] ;;;
       status_json E 500
         (VObj [("error", VStr "An internal server error occurred while fetching Gumroad data.");
                ("details", VStr (message error))])).

(** An execution in which the credential is configured, and in which the
    product call, respectively the reviews call, returns a response. *)
Definition configured : Prop := env_truthy GUMROAD_ACCESS_TOKEN = true.
Definition product_returns (productRes : Response) : Prop :=
  network w productUrl apiHeaders = Resolved productRes.
Definition reviews_returns (reviewsRes : Response) : Prop :=
  network w reviewsUrl apiHeaders = Resolved reviewsRes.

End Handler.
End Part001.

(** ** src/api/gumroad.js: the product call alone *)

Module ApiGumroad.
Import JS Platform.
Local Open Scope js_scope.

Section Handler.
Variable E : Engine.
Variable w : World.

Definition GUMROAD_ACCESS_TOKEN : option string := env w "GUMROAD_ACCESS_TOKEN".
Definition PRODUCT_ID : string := "rdcvzn".

Definition productUrl : string := "https://api.gumroad.com/v2/products/" ++ PRODUCT_ID.

Definition responseData (productData : value) : Result value :=
  p1 <-- member E productData "product" ;;
  sales_count <-- member E p1 "sales_count" ;;
  p2 <-- member E productData "product" ;;
  r2 <-- member E p2 "rating" ;;
  average_rating <-- member E r2 "average_rating" ;;
  rating_average <-- parseFloat E average_rating ;;
  p3 <-- member E productData "product" ;;
  r3 <-- member E p3 "rating" ;;
  rating_count <-- member E r3 "count" ;;
  p4 <-- member E productData "product" ;;
  formatted_price <-- member E p4 "formatted_price" ;;
  p5 <-- member E productData "product" ;;
  permalink <-- member E p5 "permalink" ;;
  inr (VObj [("sales_count", sales_count);
             ("rating_average", rating_average);
             ("rating_count", rating_count);
             ("formatted_price", formatted_price);
             ("permalink", permalink)]).

Definition handler (request : Request) : M unit :=
  try_catch
    ((if negb (env_truthy GUMROAD_ACCESS_TOKEN)
      then throw (Error "GUMROAD_ACCESS_TOKEN environment variable is not set.")
      else ret tt) ;;;
     p <- fetch w productUrl
            [("Authorization", "Bearer " ++ env_text GUMROAD_ACCESS_TOKEN)] ;;
     productRes <- await p ;;
     (if negb (ok productRes)
      then errorBody <- text productRes ;;
           throw (Error ("Gumroad API responded with status "
                         ++ number_to_string (status productRes)
                         ++ ". Details: " ++ errorBody))
      else ret tt) ;;;
     productData <- json E productRes ;;
     data <- lift (responseData productData) ;;
     setHeader "Cache-Control" "s-maxage=3600, stale-while-revalidate" ;;;
     status_json E 200 data)
    (fun error =>
       console_error ["Error in Vercel function:"; message error] ;;;
       status_json E 500
         (VObj [("error", VStr "An internal server error occurred.");
                ("details", VStr (message error))])).

Definition configured : Prop := env_truthy GUMROAD_ACCESS_TOKEN = true.
Definition product_returns (productRes : Response) : Prop :=
  network w productUrl [("Authorization", "Bearer " ++ env_text GUMROAD_ACCESS_TOKEN)]
  = Resolved productRes.

End Handler.
End ApiGumroad.

(** ** Reading the responses: cache directives, words in a message *)

Module Observe.
Import JS Platform.

(** [prefix p s]: [s] starts with [p]. *)
Fixpoint prefix (p s : string) : bool :=
  match p, s with
  | EmptyString, _ => true
  | String a p', String b s' => Ascii.eqb a b && prefix p' s'
  | String _ _, EmptyString => false
  end.

(** [mentions word s]: [word] occurs somewhere in [s]. *)
Fixpoint mentions (word s : string) : bool :=
  prefix word s ||
  match s with
  | EmptyString => false
  | String _ rest => mentions word rest
  end.

Fixpoint drop (n : nat) (s : string) : string :=
  match n, s with
  | O, _ => s
  | S n', String _ rest => drop n' rest
  | S _, EmptyString => EmptyString
  end.

Fixpoint skip_spaces (s : string) : string :=
  match s with
  | String " " rest => skip_spaces rest
  | _ => s
  end.

(** The comma-separated directives of a Cache-Control value. *)
Fixpoint directives_from (current : string) (s : string) : list string :=
  match s with
  | EmptyString => [skip_spaces current]
  | String "," rest => skip_spaces current :: directives_from EmptyString rest
  | String c rest => directives_from (current ++ String c EmptyString) rest
  end.

Definition directives (v : string) : list string := directives_from EmptyString v.

Definition has_directive (d : string) (v : string) : bool :=
  existsb (String.eqb d) (directives v).

(** The shared-cache lifetime, in seconds, that a Cache-Control value
    advises: the argument of its [s-maxage] directive. *)
Definition s_maxage (v : string) : option Z :=
  match find (prefix "s-maxage=") (directives v) with
  | Some d => option_map Z.of_uint (NilEmpty.uint_of_string (drop 9 d))
  | None => None
  end.

(** The two ways a handler can leave the response: the catch block's
    error body, sent over the headers as they came in, or the merged body,
    sent after the cache advice has been set.  Either way
    [response.json] writes its own three headers. *)
Definition error_body (generic msg : string) : value :=
  VObj [("error", VStr generic); ("details", VStr msg)].

Definition failed (E : Engine) (generic : string) (r : ServerResponse) (tr : list Event)
    (msg : string) : State :=
  {| response := {| headers := json_headers E (headers r) (error_body generic msg);
                    statusCode := 500;
                    sent := Some (error_body generic msg) |};
     trace := tr ++ [ConsoleError ["Error in Vercel function:"; msg]] |}.

Definition succeeded (E : Engine) (advice : string) (r : ServerResponse) (tr : list Event)
    (data : value) : State :=
  {| response := {| headers :=
                      json_headers E
                        (("cache-control", advice) :: header_remove "cache-control" (headers r))
                        data;
                    statusCode := 200;
                    sent := Some data |};
     trace := tr |}.

(** An upstream review record: an object whose [user_name] is a string. *)
Definition review_record (r : value) : bool :=
  match r with
  | VObj props =>
      match lookup "user_name" props with
      | VStr _ => true
      | _ => false
      end
  | _ => false
  end.

(** [e] is the ReviewEntry of the upstream record [r]. *)
Definition entry_of (r e : value) : Prop :=
  exists name,
    own r "user_name" = VStr name /\
    e = VObj [("name", VStr name);
              ("rating", own r "rating");
              ("content", own r "review_content");
              ("avatar_id",
               VStr (string_of_list_ascii
                       (filter alphanumeric (list_ascii_of_string name))))].

(** Neither an array nor an object: [parseFloat] on such a value cannot throw. *)
Definition primitive (v : value) : bool :=
  match v with
  | VArr _ | VObj _ => false
  | _ => true
  end.

(** [product.rating?.k]. *)
Definition rating_of (product : value) (k : string) : value :=
  if nullish (own product "rating") then VUndefined else own (own product "rating") k.

(** A product payload: a parsed body with a [product] in it, whose average
    rating, if any, is a number or a string. *)
Definition product_payload (productData : value) : bool :=
  negb (nullish productData) &&
  negb (nullish (own productData "product")) &&
  primitive (rating_of (own productData "product") "average_rating").

(** The product of the payload has a [rating] object. *)
Definition rated (productData : value) : bool :=
  negb (nullish (own (own productData "product") "rating")).

(** The literals of the three variants. *)
Definition generic_error : string :=
  "An internal server error occurred while fetching Gumroad data.".
Definition generic_error_product_only : string := "An internal server error occurred.".
Definition advice_900 : string := "s-maxage=900, stale-while-revalidate".
Definition advice_3600 : string := "s-maxage=3600, stale-while-revalidate".
Definition empty_reviews : value := VObj [("success", VBool true); ("reviews", VArr [])].
Definition note_404 : Event :=
  ConsoleLog ["Gumroad reviews returned 404. This is normal if there are no reviews yet. Proceeding with an empty list."].

Definition cache_control (s : State) : option string := getHeader (response s) "Cache-Control".

End Observe.

(** ** Sample documents, a sample engine and sample worlds *)

Module Sample.
Import JS Platform.

Definition dq : string := String (ascii_of_nat 34) EmptyString.
Definition quoted (s : string) : string := dq ++ s ++ dq.

(** Numbers of the sample documents, as JSON prints them. *)
Definition number_text (x : float) : string :=
  if PrimFloat.eqb x 0 then "0"
  else if PrimFloat.eqb x 3 then "3"
  else if PrimFloat.eqb x 4 then "4"
  else if PrimFloat.eqb x 4.5 then "4.5"
  else if PrimFloat.eqb x 5 then "5"
  else if PrimFloat.eqb x 12 then "12"
  else "null".

Fixpoint stringify (v : value) : string :=
  match v with
  | VUndefined | VNull => "null"
  | VBool true => "true"
  | VBool false => "false"
  | VNum x => number_text x
  | VStr s => quoted s
  | VArr items =>
      "[" ++ (fix elements (l : list value) : string :=
                match l with
                | [] => ""
                | x :: rest =>
                    stringify x ++
                    match rest with
                    | [] => ""
                    | _ => "," ++ elements rest
                    end
                end) items ++ "]"
  | VObj props =>
      "{" ++ (fix members (l : list (string * value)) (first : bool) : string :=
                match l with
                | [] => ""
                | (k, VUndefined) :: rest => members rest first
                | (k, x) :: rest =>
                    (if first then "" else ",") ++ quoted k ++ ":" ++ stringify x
                    ++ members rest false
                end) props true ++ "}"
  end.

(** A product with its rating and permalink. *)
Definition product_doc : value :=
  VObj [("success", VBool true);
        ("product", VObj [("sales_count", VNum 12);
                          ("rating", VObj [("count", VNum 3); ("average_rating", VNum 4.5)]);
                          ("formatted_price", VStr "$9");
                          ("permalink", VStr "abcde")])].

(** A product that has no rating yet. *)
Definition unrated_doc : value :=
  VObj [("success", VBool true);
        ("product", VObj [("sales_count", VNum 0);
                          ("formatted_price", VStr "$9");
                          ("permalink", VStr "abcde")])].

(** A product whose payload carries no permalink. *)
Definition no_permalink_doc : value :=
  VObj [("success", VBool true);
        ("product", VObj [("sales_count", VNum 12);
                          ("rating", VObj [("count", VNum 3); ("average_rating", VNum 4.5)]);
                          ("formatted_price", VStr "$9")])].

Definition reviews_doc : value :=
  VObj [("success", VBool true);
        ("reviews", VArr [VObj [("user_name", VStr "Ann B.");
                                ("rating", VNum 5);
                                ("review_content", VStr "Great!")];
                          VObj [("user_name", VStr "J-P 2");
                                ("rating", VNum 4);
                                ("review_content", VStr "ok")]])].

Definition documents : list value := [product_doc; unrated_doc; no_permalink_doc; reviews_doc].

(** An engine in the style of V8 that parses the sample documents. *)
Definition engine : Engine :=
  {| JSON_parse := fun s =>
       match find (fun d => (stringify d =? s)%string) documents with
       | Some d => inr d
       | None => inl "Unexpected token in JSON at position 0"
       end;
     JSON_stringify := stringify;
     cannot_read := fun base k =>
       "Cannot read properties of "
       ++ match base with VUndefined => "undefined" | _ => "null" end
       ++ " (reading '" ++ k ++ "')";
     not_a_function := fun callee => callee ++ " is not a function";
     parseFloat_string := fun s => if (s =? "4.5")%string then 4.5%float else PrimFloat.nan;
     parseFloat_object := fun _ => inr PrimFloat.nan;
     json_content_type := fun before =>
       match before with
       | Some t => t
       | None => "application/json; charset=utf-8"
       end;
     json_etag := fun before bytes =>
       match before with
       | Some tag => tag
       | None => "W/" ++ quoted (number_to_string (Z.of_nat (String.length bytes)) ++ "-sample")
       end |}.

Definition product_url : string := "https://api.gumroad.com/v2/products/rdcvzn".
Definition reviews_url : string := "https://api.gumroad.com/v2/products/rdcvzn/reviews".

(** A world with the credential [token] and the two upstream answers. *)
Definition world (token : option string) (product reviews : Response) : World :=
  {| env := fun name => if (name =? "GUMROAD_ACCESS_TOKEN")%string then token else None;
     network := fun u _ =>
       if (u =? product_url)%string then Resolved product
       else if (u =? reviews_url)%string then Resolved reviews
       else Rejected (Error "fetch failed");
     settles_first := ProductFirst |}.

Definition answer (code : Z) (doc : value) : Response :=
  {| status := code; body := stringify doc |}.

Definition not_found : Response := {| status := 404; body := "Not Found" |}.
Definition unavailable : Response := {| status := 503; body := "Service Unavailable" |}.

Definition get : Request := {| method := "GET"; url := "/api/gumroad"; payload := "" |}.
Definition post : Request := {| method := "POST"; url := "/api/gumroad?x=1"; payload := "ignored" |}.

(** The response object as the platform hands it over. *)
Definition fresh : ServerResponse := {| headers := []; statusCode := 200; sent := None |}.

End Sample.

(** ** The three variants side by side *)

Module Variants.
Import JS Platform Observe.

Inductive variant : Type :=
| part_000      (* src/unnamed/part_000 *)
| part_001      (* src/unnamed/part_001 *)
| api_gumroad.  (* src/api/gumroad.js *)

Definition handler_of (v : variant) : Engine -> World -> Request -> M unit :=
  match v with
  | part_000 => Part000.handler
  | part_001 => Part001.handler
  | api_gumroad => ApiGumroad.handler
  end.

(** The state in which variant [v] leaves the response [r0]. *)
Definition final (v : variant) (E : Engine) (w : World) (request : Request)
    (r0 : ServerResponse) : State :=
  run (handler_of v E w request) r0.

Definition configured (w : World) : Prop :=
  env_truthy (env w "GUMROAD_ACCESS_TOKEN") = true.

Definition product_returns (v : variant) (w : World) (productRes : Response) : Prop :=
  match v with
  | part_000 => Part000.product_returns w productRes
  | part_001 => Part001.product_returns w productRes
  | api_gumroad => ApiGumroad.product_returns w productRes
  end.

(** The reviews call of variant [v] returns [reviewsRes]; api/gumroad.js
    makes no such call. *)
Definition reviews_returns (v : variant) (w : World) (reviewsRes : Response) : Prop :=
  match v with
  | part_000 => Part000.reviews_returns w reviewsRes
  | part_001 => Part001.reviews_returns w reviewsRes
  | api_gumroad => True
  end.

(** The literals in which the variants differ. *)
Definition generic_of (v : variant) : string :=
  match v with
  | api_gumroad => generic_error_product_only
  | _ => generic_error
  end.

Definition advice_of (v : variant) : string :=
  match v with
  | api_gumroad => advice_3600
  | _ => advice_900
  end.

Definition lifetime_of (v : variant) : Z :=
  match v with
  | api_gumroad => 3600
  | _ => 900
  end.

Definition missing_credential_detail (v : variant) : string :=
  match v with
  | api_gumroad => "GUMROAD_ACCESS_TOKEN environment variable is not set."
  | _ => "Server configuration error: Missing API token."
  end.

Definition product_refused_detail (v : variant) (productRes : Response) : string :=
  match v with
  | api_gumroad => "Gumroad API responded with status "
  | _ => "Gumroad Product API responded with status "
  end ++ number_to_string (status productRes) ++ ". Details: " ++ body productRes.

Definition reviews_refused_detail (reviewsRes : Response) : string :=
  "Gumroad Reviews API responded with status "
  ++ number_to_string (status reviewsRes) ++ ". Details: " ++ body reviewsRes.

(** The merged body of part_000, of part_001 and of api/gumroad.js, for
    the product [p], the parsed average [x] and the review entries [out]. *)
Definition merged_000 (p : value) (x : float) (out : list value) : value :=
  VObj [("sales_count", own p "sales_count");
        ("rating_average", VNum x);
        ("rating_count", or_else (rating_of p "count") (VNum 0));
        ("formatted_price", own p "formatted_price");
        ("permalink", or_else (own p "permalink") (VStr "rdcvzn"));
        ("reviews", VArr out)].

Definition merged_001 (p : value) (x : float) (out : list value) : value :=
  VObj [("sales_count", own p "sales_count");
        ("rating_average", VNum x);
        ("rating_count", own (own p "rating") "count");
        ("formatted_price", own p "formatted_price");
        ("permalink", own p "permalink");
        ("reviews", VArr out)].

End Variants.

(** ** Vocabulary for the further properties *)

Module Shapes.
Import JS Platform Observe Variants.

(** How the product call of variant [v] settles, and its reviews call
    when it makes one. *)
Definition product_outcome (v : variant) (w : World) : Outcome :=
  match v with
  | part_000 => network w (Part000.productUrl w) (Part000.apiHeaders w)
  | part_001 => network w (Part001.productUrl w) (Part001.apiHeaders w)
  | api_gumroad =>
      network w ApiGumroad.productUrl
        [("Authorization", "Bearer " ++ env_text (ApiGumroad.GUMROAD_ACCESS_TOKEN w))]
  end.

Definition reviews_outcome (v : variant) (w : World) : option Outcome :=
  match v with
  | part_000 => Some (network w (Part000.reviewsUrl w) (Part000.apiHeaders w))
  | part_001 => Some (network w (Part001.reviewsUrl w) (Part001.apiHeaders w))
  | api_gumroad => None
  end.

(** The outbound calls of variant [v] for the credential [token] and the
    configured product identifier [id], written out. *)
Definition calls_of (v : variant) (token : string) (id : option string) : list Event :=
  let authorization := [("Authorization", "Bearer " ++ token)] in
  let product :=
    match id with
    | Some (String c rest) => String c rest
    | _ => "rdcvzn"
    end in
  match v with
  | api_gumroad => [Fetch "https://api.gumroad.com/v2/products/rdcvzn" authorization]
  | _ => [Fetch ("https://api.gumroad.com/v2/products/" ++ product) authorization;
          Fetch ("https://api.gumroad.com/v2/products/" ++ product ++ "/reviews") authorization]
  end.

(** The property names of an object, in order. *)
Definition keys (data : value) : list string :=
  match data with
  | VObj props => map fst props
  | _ => []
  end.

Definition keys_of (v : variant) : list string :=
  match v with
  | api_gumroad =>
      ["sales_count"; "rating_average"; "rating_count"; "formatted_price"; "permalink"]
  | _ =>
      ["sales_count"; "rating_average"; "rating_count"; "formatted_price"; "permalink";
       "reviews"]
  end.

(** No character of [s] is alphanumeric. *)
Definition no_alphanumeric (s : string) : bool :=
  forallb (fun c => negb (alphanumeric c)) (list_ascii_of_string s).

Definition all_alphanumeric (s : string) : bool :=
  forallb alphanumeric (list_ascii_of_string s).

(** A ReviewEntry as the handlers build it: four properties in order, a
    string [name] and the [avatar_id] computed from it. *)
Definition review_entry_shape (e : value) : Prop :=
  keys e = ["name"; "rating"; "content"; "avatar_id"] /\
  exists name,
    own e "name" = VStr name /\
    own e "avatar_id" = VStr (replace_non_alphanumeric name).

(** The reviews payload the variant reads after the answer [reviewsRes]:
    the parsed body of a 2xx answer, and in part_000 the empty list for a
    404. *)
Definition reviews_payload (v : variant) (E : Engine) (reviewsRes : Response)
    (reviewsData : value) : Prop :=
  (ok reviewsRes = true /\ JSON_parse E (body reviewsRes) = inr reviewsData) \/
  (v = part_000 /\ status reviewsRes = 404 /\ reviewsData = empty_reviews).

End Shapes.

(** * Properties *)

Import JS Platform Observe Variants.

(** ** Unfolding a handler run *)

Ltac run_handler :=
  cbv beta iota delta
    [run start Part000.handler Part001.handler ApiGumroad.handler
     try_catch bind ret throw lift emit update console_error console_log
     fetch await await_all text json setHeader status_json snd fst
     Part000.GUMROAD_ACCESS_TOKEN Part001.GUMROAD_ACCESS_TOKEN
     ApiGumroad.GUMROAD_ACCESS_TOKEN
     Part000.configured Part000.product_returns Part000.reviews_returns
     Part001.configured Part001.product_returns Part001.reviews_returns
     ApiGumroad.configured ApiGumroad.product_returns] in *.

(** *** Facts about the value operations *)

Lemma replace_non_alphanumeric_filter (s : string) :
  replace_non_alphanumeric s
  = string_of_list_ascii (filter alphanumeric (list_ascii_of_string s)).
Proof.
  induction s as [|c rest IH]; cbn [replace_non_alphanumeric list_ascii_of_string filter].
  - reflexivity.
  - destruct (alphanumeric c); cbn [string_of_list_ascii]; now rewrite IH.
Qed.

Lemma member_present (E : Engine) (base : value) (k : string) :
  nullish base = false -> member E base k = inr (own base k).
Proof. destruct base; cbn; intros H; try discriminate; reflexivity. Qed.

Lemma review_entry_record (E : Engine) (r : value) :
  review_record r = true ->
  exists e, Part000.review_entry E r = inr e /\ Part001.review_entry E r = inr e /\ entry_of r e.
Proof.
  destruct r as [ | | | | |items|props]; cbn [review_record]; try discriminate.
  destruct (lookup "user_name" props) as [ | | | |name| | ] eqn:Hname; try discriminate.
  intros _. unfold Part000.review_entry, Part001.review_entry, entry_of.
  cbv beta iota delta [member own and_then]. rewrite Hname.
  cbv beta iota delta [replace_call]. rewrite replace_non_alphanumeric_filter.
  eexists. split; [reflexivity|]. split; [reflexivity|].
  exists name. split; reflexivity.
Qed.

Lemma map_review_entries (E : Engine) (items : list value) :
  forallb review_record items = true ->
  exists out,
    map_result (Part000.review_entry E) items = inr out /\
    map_result (Part001.review_entry E) items = inr out /\
    Forall2 entry_of items out.
Proof.
  induction items as [|r rest IH]; cbn [forallb map_result]; intros H.
  - exists []. auto.
  - apply andb_true_iff in H as [Hr Hrest].
    destruct (review_entry_record E r Hr) as (e & He0 & He1 & He).
    destruct (IH Hrest) as (out & Ho0 & Ho1 & Ho).
    exists (e :: out). rewrite He0, He1, Ho0, Ho1. auto.
Qed.

Lemma parseFloat_primitive (E : Engine) (v : value) :
  primitive v = true -> exists x, parseFloat E v = inr (VNum x).
Proof. destruct v; cbn; intros H; try discriminate; eexists; reflexivity. Qed.

Lemma or_else_primitive (a b : value) :
  primitive a = true -> primitive b = true -> primitive (or_else a b) = true.
Proof. unfold or_else. now destruct (truthy a). Qed.

Lemma optional_member_rating (E : Engine) (p : value) (k : string) :
  optional_member E (own p "rating") k = inr (rating_of p k).
Proof.
  unfold optional_member, rating_of.
  destruct (nullish (own p "rating")) eqn:H; [reflexivity|].
  now apply member_present.
Qed.

(** *** The runs of part_000, path by path *)

Section Part000Runs.
Variables (E : Engine) (w : World) (request : Request) (r0 : ServerResponse).

Let calls : list Event :=
  [Fetch (Part000.productUrl w) (Part000.apiHeaders w);
   Fetch (Part000.reviewsUrl w) (Part000.apiHeaders w)].

Lemma Part000_run_unconfigured :
  env_truthy (env w "GUMROAD_ACCESS_TOKEN") = false ->
  run (Part000.handler E w request) r0
  = failed E generic_error r0
      [ConsoleError ["GUMROAD_ACCESS_TOKEN environment variable is not set."]]
      "Server configuration error: Missing API token.".
Proof. intros H. run_handler. rewrite H. reflexivity. Qed.

Lemma Part000_run_product_refused (productRes : Response) :
  Part000.configured w -> Part000.product_returns w productRes ->
  ok productRes = false ->
  exists tr msg,
    run (Part000.handler E w request) r0 = failed E generic_error r0 tr msg /\
    forall reviewsRes, Part000.reviews_returns w reviewsRes ->
      tr = calls /\
      msg = "Gumroad Product API responded with status "
            ++ number_to_string (status productRes) ++ ". Details: " ++ body productRes.
Proof.
  intros Hc Hp Hok. run_handler. rewrite Hc, Hp. cbn [negb].
  destruct (network w (Part000.reviewsUrl w) (Part000.apiHeaders w)) as [rr|e].
  - rewrite Hok. do 2 eexists. split; [reflexivity|].
    intros ? [= <-]. split; reflexivity.
  - do 2 eexists. split; [reflexivity|]. discriminate.
Qed.

Lemma Part000_run_reviews_refused (productRes reviewsRes : Response) :
  Part000.configured w -> Part000.product_returns w productRes ->
  Part000.reviews_returns w reviewsRes ->
  ok productRes = true -> ok reviewsRes = false -> status reviewsRes <> 404 ->
  run (Part000.handler E w request) r0
  = failed E generic_error r0 calls
      ("Gumroad Reviews API responded with status "
       ++ number_to_string (status reviewsRes) ++ ". Details: " ++ body reviewsRes).
Proof.
  intros Hc Hp Hr Hok Hbad H404. run_handler. rewrite Hc, Hp, Hr, Hok, Hbad.
  apply Z.eqb_neq in H404. rewrite H404. reflexivity.
Qed.

Lemma Part000_run_no_reviews (productRes reviewsRes : Response) (productData : value) :
  Part000.configured w -> Part000.product_returns w productRes ->
  Part000.reviews_returns w reviewsRes ->
  ok productRes = true -> status reviewsRes = 404 ->
  JSON_parse E (body productRes) = inr productData ->
  run (Part000.handler E w request) r0
  = match Part000.responseData E productData empty_reviews with
    | inl e => failed E generic_error r0 (calls ++ [note_404]) (message e)
    | inr data => succeeded E advice_900 r0 (calls ++ [note_404]) data
    end.
Proof.
  intros Hc Hp Hr Hok H404 Hpd. run_handler. rewrite Hc, Hp, Hr, Hok.
  unfold ok. rewrite H404, Hpd. cbn [Z.leb Z.compare Pos.compare Pos.compare_cont andb Z.eqb Pos.eqb negb].
  fold empty_reviews.
  destruct (Part000.responseData E productData empty_reviews); reflexivity.
Qed.

Lemma Part000_run_merged (productRes reviewsRes : Response) (productData reviewsData : value) :
  Part000.configured w -> Part000.product_returns w productRes ->
  Part000.reviews_returns w reviewsRes ->
  ok productRes = true -> ok reviewsRes = true ->
  JSON_parse E (body productRes) = inr productData ->
  JSON_parse E (body reviewsRes) = inr reviewsData ->
  run (Part000.handler E w request) r0
  = match Part000.responseData E productData reviewsData with
    | inl e => failed E generic_error r0 calls (message e)
    | inr data => succeeded E advice_900 r0 calls data
    end.
Proof.
  intros Hc Hp Hr Hok Hok' Hpd Hrd. run_handler.
  rewrite Hc, Hp, Hr, Hok, Hok', Hrd, Hpd. cbn [negb].
  destruct (Part000.responseData E productData reviewsData); reflexivity.
Qed.

(** Every run ends in one of the two shapes. *)
Lemma Part000_run_cases :
  (exists tr msg, run (Part000.handler E w request) r0 = failed E generic_error r0 tr msg) \/
  (exists tr data, run (Part000.handler E w request) r0 = succeeded E advice_900 r0 tr data).
Proof.
  run_handler.
  destruct (env_truthy (env w "GUMROAD_ACCESS_TOKEN")); cbn [negb];
    [|left; do 2 eexists; reflexivity].
  destruct (network w (Part000.productUrl w) (Part000.apiHeaders w)) as [pr|e1];
    destruct (network w (Part000.reviewsUrl w) (Part000.apiHeaders w)) as [rr|e2];
    try (left; do 2 eexists; reflexivity);
    [|destruct (settles_first w); left; do 2 eexists; reflexivity].
  destruct (ok pr); cbn [negb]; [|left; do 2 eexists; reflexivity].
  destruct (ok rr).
  - destruct (JSON_parse E (body rr)) as [m|rd]; [left; do 2 eexists; reflexivity|].
    destruct (JSON_parse E (body pr)) as [m|pd]; [left; do 2 eexists; reflexivity|].
    destruct (Part000.responseData E pd rd);
      [left|right]; do 2 eexists; reflexivity.
  - destruct (status rr =? 404); [|left; do 2 eexists; reflexivity].
    destruct (JSON_parse E (body pr)) as [m|pd]; [left; do 2 eexists; reflexivity|].
    destruct (Part000.responseData E pd _);
      [left|right]; do 2 eexists; reflexivity.
Qed.

End Part000Runs.

(** *** The runs of part_001 *)

Section Part001Runs.
Variables (E : Engine) (w : World) (request : Request) (r0 : ServerResponse).

Let calls : list Event :=
  [Fetch (Part001.productUrl w) (Part001.apiHeaders w);
   Fetch (Part001.reviewsUrl w) (Part001.apiHeaders w)].

Lemma Part001_run_unconfigured :
  env_truthy (env w "GUMROAD_ACCESS_TOKEN") = false ->
  run (Part001.handler E w request) r0
  = failed E generic_error r0
      [ConsoleError ["GUMROAD_ACCESS_TOKEN environment variable is not set."]]
      "Server configuration error: Missing API token.".
Proof. intros H. run_handler. rewrite H. reflexivity. Qed.

Lemma Part001_run_product_refused (productRes : Response) :
  Part001.configured w -> Part001.product_returns w productRes ->
  ok productRes = false ->
  exists tr msg,
    run (Part001.handler E w request) r0 = failed E generic_error r0 tr msg /\
    forall reviewsRes, Part001.reviews_returns w reviewsRes ->
      tr = calls /\
      msg = "Gumroad Product API responded with status "
            ++ number_to_string (status productRes) ++ ". Details: " ++ body productRes.
Proof.
  intros Hc Hp Hok. run_handler. rewrite Hc, Hp. cbn [negb].
  destruct (network w (Part001.reviewsUrl w) (Part001.apiHeaders w)) as [rr|e].
  - rewrite Hok. do 2 eexists. split; [reflexivity|].
    intros ? [= <-]. split; reflexivity.
  - do 2 eexists. split; [reflexivity|]. discriminate.
Qed.

(** Any reviews status outside 200-299 ends the run, 404 included. *)
Lemma Part001_run_reviews_refused (productRes reviewsRes : Response) :
  Part001.configured w -> Part001.product_returns w productRes ->
  Part001.reviews_returns w reviewsRes ->
  ok productRes = true -> ok reviewsRes = false ->
  run (Part001.handler E w request) r0
  = failed E generic_error r0 calls
      ("Gumroad Reviews API responded with status "
       ++ number_to_string (status reviewsRes) ++ ". Details: " ++ body reviewsRes).
Proof.
  intros Hc Hp Hr Hok Hbad. run_handler. rewrite Hc, Hp, Hr, Hok, Hbad. reflexivity.
Qed.

Lemma Part001_run_merged (productRes reviewsRes : Response) (productData reviewsData : value) :
  Part001.configured w -> Part001.product_returns w productRes ->
  Part001.reviews_returns w reviewsRes ->
  ok productRes = true -> ok reviewsRes = true ->
  JSON_parse E (body productRes) = inr productData ->
  JSON_parse E (body reviewsRes) = inr reviewsData ->
  run (Part001.handler E w request) r0
  = match Part001.responseData E productData reviewsData with
    | inl e => failed E generic_error r0 calls (message e)
    | inr data => succeeded E advice_900 r0 calls data
    end.
Proof.
  intros Hc Hp Hr Hok Hok' Hpd Hrd. run_handler.
  rewrite Hc, Hp, Hr, Hok, Hok', Hrd, Hpd. cbn [negb].
  destruct (Part001.responseData E productData reviewsData); reflexivity.
Qed.

Lemma Part001_run_cases :
  (exists tr msg, run (Part001.handler E w request) r0 = failed E generic_error r0 tr msg) \/
  (exists tr data, run (Part001.handler E w request) r0 = succeeded E advice_900 r0 tr data).
Proof.
  run_handler.
  destruct (env_truthy (env w "GUMROAD_ACCESS_TOKEN")); cbn [negb];
    [|left; do 2 eexists; reflexivity].
  destruct (network w (Part001.productUrl w) (Part001.apiHeaders w)) as [pr|e1];
    destruct (network w (Part001.reviewsUrl w) (Part001.apiHeaders w)) as [rr|e2];
    try (left; do 2 eexists; reflexivity);
    [|destruct (settles_first w); left; do 2 eexists; reflexivity].
  destruct (ok pr); cbn [negb]; [|left; do 2 eexists; reflexivity].
  destruct (ok rr); cbn [negb]; [|left; do 2 eexists; reflexivity].
  destruct (JSON_parse E (body pr)) as [m|pd]; [left; do 2 eexists; reflexivity|].
  destruct (JSON_parse E (body rr)) as [m|rd]; [left; do 2 eexists; reflexivity|].
  destruct (Part001.responseData E pd rd); [left|right]; do 2 eexists; reflexivity.
Qed.

End Part001Runs.

(** *** The runs of api/gumroad.js *)

Section ApiGumroadRuns.
Variables (E : Engine) (w : World) (request : Request) (r0 : ServerResponse).

Let call : list Event :=
  [Fetch (ApiGumroad.productUrl)
     [("Authorization", "Bearer " ++ env_text (env w "GUMROAD_ACCESS_TOKEN"))]].

Lemma ApiGumroad_run_unconfigured :
  env_truthy (env w "GUMROAD_ACCESS_TOKEN") = false ->
  run (ApiGumroad.handler E w request) r0
  = failed E generic_error_product_only r0 []
      "GUMROAD_ACCESS_TOKEN environment variable is not set.".
Proof. intros H. run_handler. rewrite H. reflexivity. Qed.

Lemma ApiGumroad_run_product_refused (productRes : Response) :
  ApiGumroad.configured w -> ApiGumroad.product_returns w productRes ->
  ok productRes = false ->
  run (ApiGumroad.handler E w request) r0
  = failed E generic_error_product_only r0 call
      ("Gumroad API responded with status "
       ++ number_to_string (status productRes) ++ ". Details: " ++ body productRes).
Proof.
  intros Hc Hp Hok. run_handler. rewrite Hc, Hp, Hok. reflexivity.
Qed.

Lemma ApiGumroad_run_merged (productRes : Response) (productData : value) :
  ApiGumroad.configured w -> ApiGumroad.product_returns w productRes ->
  ok productRes = true ->
  JSON_parse E (body productRes) = inr productData ->
  run (ApiGumroad.handler E w request) r0
  = match ApiGumroad.responseData E productData with
    | inl e => failed E generic_error_product_only r0 call (message e)
    | inr data => succeeded E advice_3600 r0 call data
    end.
Proof.
  intros Hc Hp Hok Hpd. run_handler. rewrite Hc, Hp, Hok, Hpd. cbn [negb].
  destruct (ApiGumroad.responseData E productData); reflexivity.
Qed.

Lemma ApiGumroad_run_cases :
  (exists tr msg,
     run (ApiGumroad.handler E w request) r0 = failed E generic_error_product_only r0 tr msg) \/
  (exists tr data, run (ApiGumroad.handler E w request) r0 = succeeded E advice_3600 r0 tr data).
Proof.
  run_handler.
  destruct (env_truthy (env w "GUMROAD_ACCESS_TOKEN")); cbn [negb];
    [|left; do 2 eexists; reflexivity].
  destruct (network w _ _) as [pr|e]; [|left; do 2 eexists; reflexivity].
  destruct (ok pr); cbn [negb]; [|left; do 2 eexists; reflexivity].
  destruct (JSON_parse E (body pr)) as [m|pd]; [left; do 2 eexists; reflexivity|].
  destruct (ApiGumroad.responseData E pd); [left|right]; do 2 eexists; reflexivity.
Qed.

End ApiGumroadRuns.

(** *** The merged body *)

Section Merge.
Variable E : Engine.

Lemma product_payload_inv (productData : value) :
  product_payload productData = true ->
  member E productData "product" = inr (own productData "product") /\
  nullish (own productData "product") = false /\
  primitive (rating_of (own productData "product") "average_rating") = true.
Proof.
  unfold product_payload. intros H.
  apply andb_true_iff in H as [H Hprim]. apply andb_true_iff in H as [Hpd Hp].
  apply negb_true_iff in Hpd, Hp. auto using member_present.
Qed.

Lemma Part000_responseData_payload (productData reviewsData : value) :
  product_payload productData = true ->
  let product := own productData "product" in
  exists x,
    parseFloat E (or_else (rating_of product "average_rating") (VNum 0)) = inr (VNum x) /\
    Part000.responseData E productData reviewsData
    = (rows <-- member E reviewsData "reviews" ;;
       reviews <-- map_call E rows (Part000.review_entry E) ;;
       inr (VObj [("sales_count", own product "sales_count");
                  ("rating_average", VNum x);
                  ("rating_count", or_else (rating_of product "count") (VNum 0));
                  ("formatted_price", own product "formatted_price");
                  ("permalink", or_else (own product "permalink") (VStr "rdcvzn"));
                  ("reviews", reviews)]))%js.
Proof.
  intros H. destruct (product_payload_inv _ H) as (Hm & Hp & Hprim). cbv zeta.
  destruct (parseFloat_primitive E (or_else (rating_of (own productData "product")
                                               "average_rating") (VNum 0))) as [x Hx].
  { now apply or_else_primitive. }
  exists x. split; [exact Hx|].
  unfold Part000.responseData. rewrite Hm. cbv beta iota delta [and_then].
  rewrite !(member_present E _ _ Hp). rewrite !optional_member_rating, Hx.
  reflexivity.
Qed.

Lemma Part001_responseData_payload (productData reviewsData : value) :
  product_payload productData = true -> rated productData = true ->
  let product := own productData "product" in
  exists x,
    parseFloat E (own (own product "rating") "average_rating") = inr (VNum x) /\
    Part001.responseData E productData reviewsData
    = (rows <-- member E reviewsData "reviews" ;;
       reviews <-- map_call E rows (Part001.review_entry E) ;;
       inr (VObj [("sales_count", own product "sales_count");
                  ("rating_average", VNum x);
                  ("rating_count", own (own product "rating") "count");
                  ("formatted_price", own product "formatted_price");
                  ("permalink", own product "permalink");
                  ("reviews", reviews)]))%js.
Proof.
  intros H Hr. destruct (product_payload_inv _ H) as (Hm & Hp & Hprim). cbv zeta.
  unfold rated in Hr. apply negb_true_iff in Hr.
  unfold rating_of in Hprim. rewrite Hr in Hprim.
  destruct (parseFloat_primitive E _ Hprim) as [x Hx].
  exists x. split; [exact Hx|].
  unfold Part001.responseData. rewrite Hm. cbv beta iota delta [and_then].
  rewrite !(member_present E _ _ Hp). rewrite !(member_present E _ _ Hr), Hx.
  reflexivity.
Qed.

(** Without a [rating] object, the unguarded read [rating.average_rating]
    throws. *)
Lemma Part001_responseData_unrated (productData reviewsData : value) :
  product_payload productData = true -> rated productData = false ->
  Part001.responseData E productData reviewsData
  = inl (Error (cannot_read E (own (own productData "product") "rating") "average_rating")).
Proof.
  intros H Hr. destruct (product_payload_inv _ H) as (Hm & Hp & _).
  unfold rated in Hr. apply negb_false_iff in Hr.
  unfold Part001.responseData. rewrite Hm. cbv beta iota delta [and_then].
  rewrite !(member_present E _ _ Hp).
  destruct (own (own productData "product") "rating"); try discriminate; reflexivity.
Qed.

Lemma reviews_of_records (reviewsData : value) (items : list value) :
  member E reviewsData "reviews" = inr (VArr items) ->
  forallb review_record items = true ->
  exists out,
    Forall2 entry_of items out /\
    (forall k : value -> Result value,
       (rows <-- member E reviewsData "reviews" ;;
        reviews <-- map_call E rows (Part000.review_entry E) ;; k reviews)%js
       = k (VArr out)) /\
    (forall k : value -> Result value,
       (rows <-- member E reviewsData "reviews" ;;
        reviews <-- map_call E rows (Part001.review_entry E) ;; k reviews)%js
       = k (VArr out)).
Proof.
  intros Hm Hrec. destruct (map_review_entries E items Hrec) as (out & H0 & H1 & Hout).
  exists out. split; [exact Hout|].
  split; intros k; rewrite Hm; cbv beta iota delta [and_then map_call];
    [rewrite H0|rewrite H1]; reflexivity.
Qed.

End Merge.

(** *** Every variant ends in one of the two shapes *)

Lemma final_cases (v : variant) (E : Engine) (w : World) (request : Request) (r0 : ServerResponse) :
  (exists tr msg, final v E w request r0 = failed E (generic_of v) r0 tr msg) \/
  (exists tr data, final v E w request r0 = succeeded E (advice_of v) r0 tr data).
Proof.
  destruct v; unfold final, handler_of, generic_of, advice_of.
  - apply Part000_run_cases.
  - apply Part001_run_cases.
  - apply ApiGumroad_run_cases.
Qed.

Lemma final_unconfigured (v : variant) (E : Engine) (w : World) (request : Request)
    (r0 : ServerResponse) :
  env_truthy (env w "GUMROAD_ACCESS_TOKEN") = false ->
  exists tr,
    final v E w request r0 = failed E (generic_of v) r0 tr (missing_credential_detail v) /\
    filter is_fetch tr = [].
Proof.
  intros H. destruct v; unfold final, handler_of, generic_of, missing_credential_detail.
  - rewrite Part000_run_unconfigured by exact H. eexists; split; reflexivity.
  - rewrite Part001_run_unconfigured by exact H. eexists; split; reflexivity.
  - rewrite ApiGumroad_run_unconfigured by exact H. eexists; split; reflexivity.
Qed.

Lemma outbound_failed (E : Engine) (generic : string) (r0 : ServerResponse) (tr : list Event)
    (msg : string) :
  outbound (failed E generic r0 tr msg) = filter is_fetch tr.
Proof.
  unfold outbound, failed. cbn [trace]. rewrite filter_app. cbn. apply app_nil_r.
Qed.

(** *** Headers *)

Lemma header_lookup_remove (name k : string) (hs : Headers) :
  name <> k -> header_lookup name (header_remove k hs) = header_lookup name hs.
Proof.
  intros Hne. unfold header_remove.
  induction hs as [|[n x] hs IH]; cbn [filter header_lookup fst]; [reflexivity|].
  destruct (String.eqb_spec n k) as [->|Hnk]; cbn [negb header_lookup].
  - apply String.eqb_neq in Hne. rewrite String.eqb_sym, Hne. exact IH.
  - destruct (n =? name)%string; [reflexivity|exact IH].
Qed.

Lemma header_lookup_set (name k x : string) (hs : Headers) :
  header_lookup name (set_header k x hs)
  = if (k =? name)%string then Some x else header_lookup name hs.
Proof.
  unfold set_header. cbn [header_lookup].
  destruct (String.eqb_spec k name) as [Heq|Hne]; [reflexivity|].
  apply header_lookup_remove. congruence.
Qed.

(** [response.json(obj)] leaves every header alone but the three it writes. *)
Lemma header_lookup_json_headers (E : Engine) (name : string) (hs : Headers) (obj : value) :
  written_by_json name = false ->
  header_lookup name (json_headers E hs obj) = header_lookup name hs.
Proof.
  unfold written_by_json. cbn [existsb]. intros H.
  apply orb_false_iff in H as [Ht H]. apply orb_false_iff in H as [Hl H].
  apply orb_false_iff in H as [He _].
  unfold json_headers. cbv zeta. rewrite !header_lookup_set.
  rewrite (String.eqb_sym "etag"), He, (String.eqb_sym "content-length"), Hl,
    (String.eqb_sym "content-type"), Ht.
  reflexivity.
Qed.

(** Content-Type after [response.json(obj)] does not depend on the body. *)
Lemma header_lookup_content_type (E : Engine) (hs : Headers) (obj : value) :
  header_lookup "content-type" (json_headers E hs obj)
  = Some (json_content_type E (header_lookup "content-type" hs)).
Proof. unfold json_headers. cbv zeta. rewrite !header_lookup_set. reflexivity. Qed.

(** Two bodies sent over the same headers give headers that differ at
    most in Content-Length and ETag. *)
Lemma json_headers_agree (E : Engine) (name : string) (hs : Headers) (a b : value) :
  name <> "content-length" -> name <> "etag" ->
  header_lookup name (json_headers E hs a) = header_lookup name (json_headers E hs b).
Proof.
  intros Hl He. unfold json_headers. cbv zeta. rewrite !header_lookup_set.
  destruct (String.eqb_spec "etag" name) as [Heq|_]; [congruence|].
  destruct (String.eqb_spec "content-length" name) as [Heq|_]; [congruence|].
  reflexivity.
Qed.

(** *** Words in a message *)

Lemma prefix_app (a y : string) : prefix a (a ++ y) = true.
Proof.
  induction a as [|c a IH]; cbn [prefix append]; [reflexivity|].
  now rewrite Ascii.eqb_refl, IH.
Qed.

Lemma mentions_prefix (a s : string) : prefix a s = true -> mentions a s = true.
Proof. intros H. destruct s; cbn [mentions]; now rewrite H. Qed.

Lemma mentions_skip (a x s : string) : mentions a s = true -> mentions a (x ++ s) = true.
Proof.
  intros H. induction x as [|c x IH]; cbn [append mentions]; [exact H|].
  rewrite IH. apply orb_true_r.
Qed.

Lemma mentions_here (a x y : string) : mentions a (x ++ a ++ y) = true.
Proof. apply mentions_skip, mentions_prefix, prefix_app. Qed.

Lemma mentions_end (a x : string) : mentions a (x ++ a) = true.
Proof.
  apply mentions_skip, mentions_prefix.
  induction a as [|c a IH]; cbn [prefix]; [reflexivity|].
  now rewrite Ascii.eqb_refl, IH.
Qed.

Lemma product_refused_detail_embeds (v : variant) (productRes : Response) :
  mentions (number_to_string (status productRes)) (product_refused_detail v productRes) = true /\
  mentions (body productRes) (product_refused_detail v productRes) = true.
Proof.
  unfold product_refused_detail. split.
  - apply mentions_here.
  - do 2 apply mentions_skip. apply mentions_end.
Qed.

Lemma reviews_refused_detail_embeds (reviewsRes : Response) :
  mentions (number_to_string (status reviewsRes)) (reviews_refused_detail reviewsRes) = true /\
  mentions (body reviewsRes) (reviews_refused_detail reviewsRes) = true.
Proof.
  unfold reviews_refused_detail. split.
  - apply mentions_here.
  - do 2 apply mentions_skip. apply mentions_end.
Qed.

(** *** What part_000 does where the other variants give up *)

Section Part000Defaults.
Variables (E : Engine) (w : World) (request : Request) (r0 : ServerResponse).

(** A 200 from part_000 carries the object built from the product payload
    and some reviews payload. *)
Lemma Part000_success_data (productRes : Response) (productData : value) :
  configured w -> product_returns part_000 w productRes ->
  JSON_parse E (body productRes) = inr productData ->
  statusCode (response (final part_000 E w request r0)) = 200 ->
  exists reviewsData data,
    Part000.responseData E productData reviewsData = inr data /\
    sent (response (final part_000 E w request r0)) = Some data.
Proof.
  intros Hc Hp Hpd. unfold final, handler_of. cbn [product_returns] in Hp.
  run_handler. rewrite Hc, Hp. cbn [negb].
  destruct (network w (Part000.reviewsUrl w) (Part000.apiHeaders w)) as [rr|e];
    [|discriminate].
  destruct (ok productRes); cbn [negb]; [|discriminate].
  destruct (ok rr).
  - destruct (JSON_parse E (body rr)) as [m|rd]; [discriminate|]. rewrite Hpd.
    destruct (Part000.responseData E productData rd) as [e|data] eqn:Hdata;
      [discriminate|].
    intros _. exists rd, data. split; [exact Hdata|reflexivity].
  - destruct (status rr =? 404); [|discriminate]. rewrite Hpd.
    destruct (Part000.responseData E productData _) as [e|data] eqn:Hdata;
      [discriminate|].
    intros _. eexists _, data. split; [exact Hdata|reflexivity].
Qed.

Lemma Part000_data_fields (productData reviewsData data : value) :
  product_payload productData = true ->
  Part000.responseData E productData reviewsData = inr data ->
  exists x out,
    parseFloat E (or_else (rating_of (own productData "product") "average_rating") (VNum 0))
    = inr (VNum x) /\
    data = merged_000 (own productData "product") x out.
Proof.
  intros Hpay Hdata.
  destruct (Part000_responseData_payload E productData reviewsData Hpay) as (x & Hx & Heq).
  rewrite Heq in Hdata. exists x.
  destruct (member E reviewsData "reviews") as [e|rows]; [discriminate|].
  cbv beta iota delta [and_then] in Hdata.
  destruct (map_call E rows (Part000.review_entry E)) as [e|reviews] eqn:Hmap;
    [discriminate|].
  assert (exists out, reviews = VArr out) as [out ->].
  { destruct rows; cbn in Hmap; try discriminate.
    destruct (map_result _ _); [discriminate|]. injection Hmap as <-. eauto. }
  exists out. split; [exact Hx|]. now injection Hdata as <-.
Qed.

(** A reviews 404 is an empty list, and the run goes on to HTTP 200. *)
Lemma Part000_reviews_404_is_empty (productRes reviewsRes : Response) (productData : value) :
  configured w ->
  product_returns part_000 w productRes -> reviews_returns part_000 w reviewsRes ->
  ok productRes = true -> status reviewsRes = 404 ->
  JSON_parse E (body productRes) = inr productData ->
  product_payload productData = true ->
  let s := final part_000 E w request r0 in
  statusCode (response s) = 200 /\ field s "reviews" = VArr [] /\ In note_404 (trace s).
Proof.
  intros Hc Hp Hr Hok H404 Hpd Hpay s. subst s. unfold final, handler_of.
  rewrite (Part000_run_no_reviews E w request r0 _ _ _ Hc Hp Hr Hok H404 Hpd).
  destruct (Part000_responseData_payload E productData empty_reviews Hpay) as (x & _ & ->).
  unfold succeeded, field. cbn [response statusCode sent trace merged_000 lookup String.eqb
    Ascii.eqb Bool.eqb app].
  repeat split. do 2 right. left. reflexivity.
Qed.

(** Without a rating object, both rating fields of a 200 are 0. *)
Lemma Part000_unrated_defaults (productRes : Response) (productData : value) :
  configured w -> product_returns part_000 w productRes ->
  JSON_parse E (body productRes) = inr productData ->
  product_payload productData = true -> rated productData = false ->
  let s := final part_000 E w request r0 in
  statusCode (response s) = 200 ->
  field s "rating_average" = VNum 0 /\ field s "rating_count" = VNum 0.
Proof.
  intros Hc Hp Hpd Hpay Hunrated s H200. subst s.
  destruct (Part000_success_data _ _ Hc Hp Hpd H200) as (rd & data & Hdata & Hsent).
  destruct (Part000_data_fields _ _ _ Hpay Hdata) as (x & out & Hx & ->).
  unfold field. rewrite Hsent.
  unfold rated in Hunrated. apply negb_false_iff in Hunrated.
  unfold merged_000, rating_of in *. rewrite Hunrated in *.
  cbn in Hx. injection Hx as <-. split; reflexivity.
Qed.

(** Without a permalink, the permalink of a 200 is the default. *)
Lemma Part000_permalink_default (productRes : Response) (productData : value) :
  configured w -> product_returns part_000 w productRes ->
  JSON_parse E (body productRes) = inr productData ->
  product_payload productData = true ->
  own (own productData "product") "permalink" = VUndefined ->
  let s := final part_000 E w request r0 in
  statusCode (response s) = 200 -> field s "permalink" = VStr "rdcvzn".
Proof.
  intros Hc Hp Hpd Hpay Hnone s H200. subst s.
  destruct (Part000_success_data _ _ Hc Hp Hpd H200) as (rd & data & Hdata & Hsent).
  destruct (Part000_data_fields _ _ _ Hpay Hdata) as (x & out & Hx & ->).
  unfold field. rewrite Hsent. unfold merged_000. rewrite Hnone. reflexivity.
Qed.

End Part000Defaults.

(** * The claims *)

(** C3 (as amended).  When the credential is absent (unset or empty),
    every variant answers HTTP 500 and issues no outbound call; the detail
    is the variant's own literal, which contains the word "configuration"
    in part_000 and part_001 and names the unset environment variable
    instead in api/gumroad.js. *)
Theorem C3_missing_credential (v : variant) (E : Engine) (w : World) (request : Request)
    (r0 : ServerResponse) :
  env_truthy (env w "GUMROAD_ACCESS_TOKEN") = false ->
  let s := final v E w request r0 in
  statusCode (response s) = 500 /\
  outbound s = [] /\
  details s = Some (missing_credential_detail v) /\
  mentions "configuration" (missing_credential_detail v)
  = match v with api_gumroad => false | _ => true end /\
  mentions "environment variable is not set" (missing_credential_detail v)
  = match v with api_gumroad => true | _ => false end.
Proof.
  intros H s. subst s.
  destruct (final_unconfigured v E w request r0 H) as (tr & -> & Htr).
  rewrite outbound_failed, Htr.
  repeat split; destruct v; reflexivity.
Qed.

Lemma C3_missing_credential_witness :
  let w := Sample.world None Sample.not_found Sample.not_found in
  env_truthy (env w "GUMROAD_ACCESS_TOKEN") = false /\
  statusCode (response (final part_000 Sample.engine w Sample.get Sample.fresh)) = 500 /\
  outbound (final part_000 Sample.engine w Sample.get Sample.fresh) = [] /\
  details (final part_000 Sample.engine w Sample.get Sample.fresh)
  = Some "Server configuration error: Missing API token.".
Proof.
  intros w.
  assert (H : env_truthy (env w "GUMROAD_ACCESS_TOKEN") = false) by reflexivity.
  split; [exact H|].
  destruct (C3_missing_credential part_000 Sample.engine w Sample.get Sample.fresh H)
    as (H1 & H2 & H3 & _).
  repeat split; assumption.
Defined.

(** C3 as stated fails on api/gumroad.js: with no credential its detail is
    "GUMROAD_ACCESS_TOKEN environment variable is not set.", in which the
    word "configuration" does not occur, in any letter case. *)
Lemma C3_counterexample :
  let w := Sample.world None Sample.not_found Sample.not_found in
  let s := final api_gumroad Sample.engine w Sample.get Sample.fresh in
  env w "GUMROAD_ACCESS_TOKEN" = None /\
  statusCode (response s) = 500 /\
  details s = Some "GUMROAD_ACCESS_TOKEN environment variable is not set." /\
  ~ (exists d, details s = Some d /\ mentions "configuration" (lowercase d) = true).
Proof.
  cbv zeta. repeat split.
  intros (d & Hd & Hm). vm_compute in Hd. injection Hd as <-. vm_compute in Hm. discriminate.
Qed.

(** C4 (as amended).  When the product call returns a status outside
    200-299, the response is HTTP 500 whatever becomes of the reviews
    call.  Once the reviews call has returned (with any status) the detail
    is the literal that embeds the product call's status and body; when
    the reviews call fails in transport, [Promise.all] rejects before the
    product status is looked at and the detail is that failure's
    message. *)
Theorem C4_product_refused (v : variant) (E : Engine) (w : World) (request : Request)
    (r0 : ServerResponse) (productRes : Response) :
  configured w -> product_returns v w productRes -> ok productRes = false ->
  let s := final v E w request r0 in
  statusCode (response s) = 500 /\
  (forall reviewsRes, reviews_returns v w reviewsRes ->
     details s = Some (product_refused_detail v productRes) /\
     mentions (number_to_string (status productRes)) (product_refused_detail v productRes) = true /\
     mentions (body productRes) (product_refused_detail v productRes) = true) /\
  (forall e, Shapes.reviews_outcome v w = Some (Rejected e) ->
     details s = Some (message e)).
Proof.
  intros Hc Hp Hok s. subst s. destruct v; unfold final, handler_of.
  - destruct (Part000_run_product_refused E w request r0 productRes Hc Hp Hok)
      as (tr & msg & Hrun & Hmsg).
    split; [now rewrite Hrun|]. split.
    + intros rr Hr. rewrite Hrun. destruct (Hmsg rr Hr) as [_ ->].
      split; [reflexivity|]. apply (product_refused_detail_embeds part_000).
    + intros e [= He]. clear Hrun Hmsg. cbn [product_returns] in Hp.
      run_handler. rewrite Hc, Hp, He. reflexivity.
  - destruct (Part001_run_product_refused E w request r0 productRes Hc Hp Hok)
      as (tr & msg & Hrun & Hmsg).
    split; [now rewrite Hrun|]. split.
    + intros rr Hr. rewrite Hrun. destruct (Hmsg rr Hr) as [_ ->].
      split; [reflexivity|]. apply (product_refused_detail_embeds part_001).
    + intros e [= He]. clear Hrun Hmsg. cbn [product_returns] in Hp.
      run_handler. rewrite Hc, Hp, He. reflexivity.
  - rewrite (ApiGumroad_run_product_refused E w request r0 productRes Hc Hp Hok).
    split; [reflexivity|]. split.
    + intros rr _. split; [reflexivity|]. apply (product_refused_detail_embeds api_gumroad).
    + discriminate.
Qed.

Lemma C4_product_refused_witness :
  let w := Sample.world (Some "tok") Sample.unavailable Sample.not_found in
  let s := final part_000 Sample.engine w Sample.get Sample.fresh in
  statusCode (response s) = 500 /\
  details s
  = Some "Gumroad Product API responded with status 503. Details: Service Unavailable".
Proof.
  intros w s.
  assert (Hc : configured w) by reflexivity.
  assert (Hp : product_returns part_000 w Sample.unavailable) by reflexivity.
  assert (Hr : reviews_returns part_000 w Sample.not_found) by reflexivity.
  destruct (C4_product_refused part_000 Sample.engine w Sample.get Sample.fresh
              Sample.unavailable Hc Hp eq_refl) as (H500 & Hd & _).
  split; [exact H500|]. exact (proj1 (Hd Sample.not_found Hr)).
Defined.

(** C4 as stated fails when the reviews call fails in transport: with the
    product call answered 503 and the reviews fetch rejected, part_000
    answers HTTP 500 with the detail "fetch failed", which embeds neither
    the product status nor the product body. *)
Lemma C4_counterexample :
  let w := {| env := env (Sample.world (Some "tok") Sample.unavailable Sample.not_found);
              network := fun u _ =>
                if (u =? Sample.product_url)%string
                then Resolved Sample.unavailable
                else Rejected (Error "fetch failed");
              settles_first := ProductFirst |} in
  let s := final part_000 Sample.engine w Sample.get Sample.fresh in
  (product_returns part_000 w Sample.unavailable /\ ok Sample.unavailable = false) /\
  statusCode (response s) = 500 /\
  details s = Some "fetch failed" /\
  option_map (mentions (number_to_string (status Sample.unavailable))) (details s)
  = Some false /\
  option_map (mentions (body Sample.unavailable)) (details s) = Some false.
Proof. cbv zeta. vm_compute. repeat split. Qed.

(** C5 (as amended).  In the variants that call the reviews endpoint, a
    reviews status outside 200-299 and other than 404 gives HTTP 500
    whatever becomes of the product call.  When the product call returned
    a status in 200-299 the detail embeds the reviews call's status and
    body; when it returned another status the detail embeds the product
    call's status and body instead (the product is checked first); when
    it fails in transport the detail is that failure's message. *)
Theorem C5_reviews_refused (v : variant) (E : Engine) (w : World) (request : Request)
    (r0 : ServerResponse) (reviewsRes : Response) :
  v <> api_gumroad ->
  configured w -> reviews_returns v w reviewsRes ->
  ok reviewsRes = false -> status reviewsRes <> 404 ->
  let s := final v E w request r0 in
  statusCode (response s) = 500 /\
  (forall productRes, product_returns v w productRes ->
     (ok productRes = true ->
      details s = Some (reviews_refused_detail reviewsRes) /\
      mentions (number_to_string (status reviewsRes)) (reviews_refused_detail reviewsRes) = true /\
      mentions (body reviewsRes) (reviews_refused_detail reviewsRes) = true) /\
     (ok productRes = false ->
      details s = Some (product_refused_detail v productRes))) /\
  (forall e, Shapes.product_outcome v w = Rejected e ->
     details s = Some (message e)).
Proof.
  intros Hv Hc Hr Hbad H404 s. subst s.
  destruct v; [| |contradiction]; unfold final, handler_of;
    cbn [reviews_returns product_returns Shapes.product_outcome] in *.
  - destruct (network w (Part000.productUrl w) (Part000.apiHeaders w)) as [pr|e] eqn:Hp.
    + destruct (ok pr) eqn:Hok.
      * rewrite (Part000_run_reviews_refused E w request r0 pr reviewsRes Hc Hp Hr Hok Hbad H404).
        split; [reflexivity|]. split; [|discriminate].
        intros pr' Hp'. unfold Part000.product_returns in Hp'.
        rewrite Hp in Hp'. injection Hp' as <-. split; [|congruence].
        intros _. split; [reflexivity|]. apply reviews_refused_detail_embeds.
      * destruct (Part000_run_product_refused E w request r0 pr Hc Hp Hok)
          as (tr & msg & -> & Hmsg).
        split; [reflexivity|]. split; [|discriminate].
        intros pr' Hp'. unfold Part000.product_returns in Hp'.
        rewrite Hp in Hp'. injection Hp' as <-. split; [congruence|].
        intros _. destruct (Hmsg reviewsRes Hr) as [_ ->]. reflexivity.
    + assert (Hrun : forall x, x = e ->
                details (run (Part000.handler E w request) r0) = Some (message x) /\
                statusCode (response (run (Part000.handler E w request) r0)) = 500).
      { intros x ->. run_handler. rewrite Hc, Hp, Hr. split; reflexivity. }
      split; [exact (proj2 (Hrun e eq_refl))|]. split.
      * intros pr' Hp'. unfold Part000.product_returns in Hp'. congruence.
      * intros e' [= <-]. exact (proj1 (Hrun e eq_refl)).
  - destruct (network w (Part001.productUrl w) (Part001.apiHeaders w)) as [pr|e] eqn:Hp.
    + destruct (ok pr) eqn:Hok.
      * rewrite (Part001_run_reviews_refused E w request r0 pr reviewsRes Hc Hp Hr Hok Hbad).
        split; [reflexivity|]. split; [|discriminate].
        intros pr' Hp'. unfold Part001.product_returns in Hp'.
        rewrite Hp in Hp'. injection Hp' as <-. split; [|congruence].
        intros _. split; [reflexivity|]. apply reviews_refused_detail_embeds.
      * destruct (Part001_run_product_refused E w request r0 pr Hc Hp Hok)
          as (tr & msg & -> & Hmsg).
        split; [reflexivity|]. split; [|discriminate].
        intros pr' Hp'. unfold Part001.product_returns in Hp'.
        rewrite Hp in Hp'. injection Hp' as <-. split; [congruence|].
        intros _. destruct (Hmsg reviewsRes Hr) as [_ ->]. reflexivity.
    + assert (Hrun : forall x, x = e ->
                details (run (Part001.handler E w request) r0) = Some (message x) /\
                statusCode (response (run (Part001.handler E w request) r0)) = 500).
      { intros x ->. run_handler. rewrite Hc, Hp, Hr. split; reflexivity. }
      split; [exact (proj2 (Hrun e eq_refl))|]. split.
      * intros pr' Hp'. unfold Part001.product_returns in Hp'. congruence.
      * intros e' [= <-]. exact (proj1 (Hrun e eq_refl)).
Qed.

Lemma C5_reviews_refused_witness :
  let w := Sample.world (Some "tok") (Sample.answer 200 Sample.product_doc) Sample.unavailable in
  let s := final part_000 Sample.engine w Sample.get Sample.fresh in
  statusCode (response s) = 500 /\
  details s
  = Some "Gumroad Reviews API responded with status 503. Details: Service Unavailable".
Proof.
  intros w s.
  assert (Hv : part_000 <> api_gumroad) by discriminate.
  assert (Hc : configured w) by reflexivity.
  assert (Hr : reviews_returns part_000 w Sample.unavailable) by reflexivity.
  assert (H404 : status Sample.unavailable <> 404) by discriminate.
  assert (Hp : product_returns part_000 w (Sample.answer 200 Sample.product_doc)) by reflexivity.
  destruct (C5_reviews_refused part_000 Sample.engine w Sample.get Sample.fresh
              Sample.unavailable Hv Hc Hr eq_refl H404) as (H500 & Hd & _).
  split; [exact H500|].
  exact (proj1 (proj1 (Hd _ Hp) eq_refl)).
Defined.

(** C5 as stated fails when the product call does not succeed: with the
    reviews call answered 503, part_000 answers HTTP 500 with the detail
    "fetch failed" when the product fetch is rejected, and with the
    product call's status and body when the product call is answered 500;
    neither detail embeds the reviews status or body. *)
Lemma C5_counterexample :
  let rejected := {| env := env (Sample.world (Some "tok") Sample.not_found Sample.unavailable);
                     network := fun u _ =>
                       if (u =? Sample.product_url)%string
                       then Rejected (Error "fetch failed")
                       else Resolved Sample.unavailable;
                     settles_first := ProductFirst |} in
  let refused := Sample.world (Some "tok") {| status := 500; body := "Internal Error" |}
                   Sample.unavailable in
  let s := final part_000 Sample.engine rejected Sample.get Sample.fresh in
  let s' := final part_000 Sample.engine refused Sample.get Sample.fresh in
  (reviews_returns part_000 rejected Sample.unavailable /\
   reviews_returns part_000 refused Sample.unavailable /\
   ok Sample.unavailable = false /\ status Sample.unavailable = 503) /\
  (statusCode (response s) = 500 /\
   details s = Some "fetch failed" /\
   option_map (mentions "503") (details s) = Some false /\
   option_map (mentions (body Sample.unavailable)) (details s) = Some false) /\
  (statusCode (response s') = 500 /\
   details s'
   = Some "Gumroad Product API responded with status 500. Details: Internal Error" /\
   option_map (mentions "503") (details s') = Some false /\
   option_map (mentions (body Sample.unavailable)) (details s') = Some false).
Proof. cbv zeta. vm_compute. repeat split. Qed.

(** C6.  When both calls return a status in 200-299, the product body
    parses to a product payload and the reviews body to a list of review
    records, part_000 and part_001 answer HTTP 200 with a body that holds
    the five product fields read from the payload's product, and a list
    with one ReviewEntry per record, in order, whose [avatar_id] is the
    record's [user_name] filtered to its alphanumeric characters.  In
    part_000 the two rating fields and the permalink pass through
    [|| default]; part_001 reads them directly and needs the rating. *)
Theorem C6_merged_body (E : Engine) (w : World) (request : Request) (r0 : ServerResponse)
    (productRes reviewsRes : Response) (productData reviewsData : value)
    (items : list value) :
  configured w ->
  product_returns part_000 w productRes -> reviews_returns part_000 w reviewsRes ->
  ok productRes = true -> ok reviewsRes = true ->
  JSON_parse E (body productRes) = inr productData ->
  product_payload productData = true ->
  JSON_parse E (body reviewsRes) = inr reviewsData ->
  member E reviewsData "reviews" = inr (VArr items) ->
  forallb review_record items = true ->
  let p := own productData "product" in
  exists out,
    length out = length items /\
    Forall2 entry_of items out /\
    (exists x,
       parseFloat E (or_else (rating_of p "average_rating") (VNum 0)) = inr (VNum x) /\
       statusCode (response (final part_000 E w request r0)) = 200 /\
       sent (response (final part_000 E w request r0)) = Some (merged_000 p x out)) /\
    (rated productData = true ->
     exists x,
       parseFloat E (own (own p "rating") "average_rating") = inr (VNum x) /\
       statusCode (response (final part_001 E w request r0)) = 200 /\
       sent (response (final part_001 E w request r0)) = Some (merged_001 p x out)).
Proof.
  intros Hc Hp Hr Hok Hok' Hpd Hpay Hrd Hlist Hrec p.
  destruct (reviews_of_records E reviewsData items Hlist Hrec) as (out & Hout & H0 & H1).
  exists out. split; [symmetry; exact (Forall2_length Hout)|]. split; [exact Hout|]. split.
  - destruct (Part000_responseData_payload E productData reviewsData Hpay) as (x & Hx & Hdata).
    exists x. split; [exact Hx|]. unfold final, handler_of.
    rewrite (Part000_run_merged E w request r0 _ _ _ _ Hc Hp Hr Hok Hok' Hpd Hrd).
    rewrite Hdata, H0. split; reflexivity.
  - intros Hrated.
    destruct (Part001_responseData_payload E productData reviewsData Hpay Hrated)
      as (x & Hx & Hdata).
    exists x. split; [exact Hx|]. unfold final, handler_of.
    rewrite (Part001_run_merged E w request r0 _ _ _ _ Hc Hp Hr Hok Hok' Hpd Hrd).
    rewrite Hdata, H1. split; reflexivity.
Qed.

Lemma C6_merged_body_witness :
  let w := Sample.world (Some "tok") (Sample.answer 200 Sample.product_doc)
             (Sample.answer 200 Sample.reviews_doc) in
  exists out,
    length out = 2%nat /\
    sent (response (final part_000 Sample.engine w Sample.get Sample.fresh))
    = Some (merged_000 (own Sample.product_doc "product") 4.5 out) /\
    sent (response (final part_001 Sample.engine w Sample.get Sample.fresh))
    = Some (merged_001 (own Sample.product_doc "product") 4.5 out).
Proof.
  intros w.
  assert (Hc : configured w) by reflexivity.
  assert (Hp : product_returns part_000 w (Sample.answer 200 Sample.product_doc)) by reflexivity.
  assert (Hr : reviews_returns part_000 w (Sample.answer 200 Sample.reviews_doc)) by reflexivity.
  assert (Hpd : JSON_parse Sample.engine (body (Sample.answer 200 Sample.product_doc))
                = inr Sample.product_doc) by (vm_compute; reflexivity).
  assert (Hrd : JSON_parse Sample.engine (body (Sample.answer 200 Sample.reviews_doc))
                = inr Sample.reviews_doc) by (vm_compute; reflexivity).
  destruct (C6_merged_body Sample.engine w Sample.get Sample.fresh _ _ _ _ _
              Hc Hp Hr eq_refl eq_refl Hpd eq_refl Hrd eq_refl eq_refl)
    as (out & Hlen & _ & (x & Hx & _ & H0) & H1).
  destruct (H1 eq_refl) as (x' & Hx' & _ & H1').
  injection Hx as <-. injection Hx' as <-.
  exists out. repeat split; assumption.
Defined.

(** C7 (as amended).  Whenever a variant answers HTTP 200 the response
    carries the variant's Cache-Control advice with stale-while-revalidate:
    a shared-cache lifetime of 900 seconds in part_000 and part_001, and
    of 3600 seconds in api/gumroad.js. *)
Theorem C7_cache_advice (v : variant) (E : Engine) (w : World) (request : Request)
    (r0 : ServerResponse) :
  statusCode (response (final v E w request r0)) = 200 ->
  cache_control (final v E w request r0) = Some (advice_of v) /\
  s_maxage (advice_of v) = Some (lifetime_of v) /\
  has_directive "stale-while-revalidate" (advice_of v) = true /\
  lifetime_of v = match v with api_gumroad => 3600 | _ => 900 end.
Proof.
  intros H.
  destruct (final_cases v E w request r0) as [(tr & msg & Hf)|(tr & data & Hf)];
    rewrite Hf in *.
  - discriminate H.
  - repeat split; destruct v; reflexivity.
Qed.

Lemma C7_cache_advice_witness :
  let w := Sample.world (Some "tok") (Sample.answer 200 Sample.product_doc)
             (Sample.answer 200 Sample.reviews_doc) in
  cache_control (final part_000 Sample.engine w Sample.get Sample.fresh)
  = Some "s-maxage=900, stale-while-revalidate" /\
  s_maxage "s-maxage=900, stale-while-revalidate" = Some 900.
Proof.
  intros w.
  assert (H : statusCode (response (final part_000 Sample.engine w Sample.get Sample.fresh)) = 200)
    by (vm_compute; reflexivity).
  destruct (C7_cache_advice part_000 Sample.engine w Sample.get Sample.fresh H)
    as (H1 & H2 & _).
  split; assumption.
Defined.

(** C7 as stated fails on api/gumroad.js: a fully successful run there
    answers HTTP 200 with [s-maxage=3600], a lifetime of one hour. *)
Lemma C7_counterexample :
  let w := Sample.world (Some "tok") (Sample.answer 200 Sample.product_doc) Sample.not_found in
  let s := final api_gumroad Sample.engine w Sample.get Sample.fresh in
  statusCode (response s) = 200 /\
  cache_control s = Some "s-maxage=3600, stale-while-revalidate" /\
  option_map s_maxage (cache_control s) = Some (Some 3600) /\
  option_map s_maxage (cache_control s) <> Some (Some 900).
Proof. cbv zeta. vm_compute. repeat split. discriminate. Qed.

(** C8.  Two runs of a variant with the same two configuration values and
    the same two upstream responses leave the same response (status,
    headers and body, hence the same body bytes) and the same log; the
    inbound request, the rest of the environment, the rest of the network
    and the order in which the calls settle make no difference. *)
Theorem C8_determined (v : variant) (E : Engine) (w1 w2 : World) (request1 request2 : Request)
    (r0 : ServerResponse) (productRes reviewsRes : Response) :
  env w1 "GUMROAD_ACCESS_TOKEN" = env w2 "GUMROAD_ACCESS_TOKEN" ->
  env w1 "GUMROAD_PRODUCT_ID" = env w2 "GUMROAD_PRODUCT_ID" ->
  product_returns v w1 productRes -> product_returns v w2 productRes ->
  reviews_returns v w1 reviewsRes -> reviews_returns v w2 reviewsRes ->
  final v E w1 request1 r0 = final v E w2 request2 r0 /\
  sent_bytes E (final v E w1 request1 r0) = sent_bytes E (final v E w2 request2 r0).
Proof.
  intros Ht Hid Hp1 Hp2 Hr1 Hr2.
  assert (Hfinal : final v E w1 request1 r0 = final v E w2 request2 r0).
  { destruct v; unfold final, handler_of; cbn [product_returns reviews_returns] in *;
      run_handler;
      unfold Part000.productUrl, Part000.reviewsUrl, Part000.apiHeaders,
        Part001.productUrl, Part001.reviewsUrl, Part001.apiHeaders,
        Part000.PRODUCT_ID, Part001.PRODUCT_ID,
        Part000.GUMROAD_ACCESS_TOKEN, Part001.GUMROAD_ACCESS_TOKEN in *;
      rewrite <- ?Ht, <- ?Hid in *;
      destruct (env_truthy (env w1 "GUMROAD_ACCESS_TOKEN")); cbn [negb];
      try reflexivity.
    - rewrite Hp1, Hr1, Hp2, Hr2. reflexivity.
    - rewrite Hp1, Hr1, Hp2, Hr2. reflexivity.
    - rewrite Hp1, Hp2. reflexivity. }
  split; [exact Hfinal|]. now rewrite Hfinal.
Qed.

Lemma C8_determined_witness :
  let w1 := Sample.world (Some "tok") (Sample.answer 200 Sample.product_doc) Sample.not_found in
  let w2 := {| env := env w1; network := network w1; settles_first := ReviewsFirst |} in
  final part_000 Sample.engine w1 Sample.get Sample.fresh
  = final part_000 Sample.engine w2 Sample.post Sample.fresh /\
  sent_bytes Sample.engine (final part_000 Sample.engine w1 Sample.get Sample.fresh)
  = sent_bytes Sample.engine (final part_000 Sample.engine w2 Sample.post Sample.fresh).
Proof.
  intros w1 w2.
  apply (C8_determined part_000 Sample.engine w1 w2 Sample.get Sample.post Sample.fresh
           (Sample.answer 200 Sample.product_doc) Sample.not_found);
    reflexivity.
Defined.

(** C10.  A variant that answers HTTP 500 has set no header itself: the
    headers of the response are the ones it received, as
    [response.json] rewrites them for the error body, so Cache-Control
    reads back as it was received and a response that came without a
    Cache-Control header leaves without one. *)
Theorem C10_no_cache_advice_on_failure (v : variant) (E : Engine) (w : World)
    (request : Request) (r0 : ServerResponse) :
  statusCode (response (final v E w request r0)) = 500 ->
  (exists body,
     sent (response (final v E w request r0)) = Some body /\
     headers (response (final v E w request r0)) = json_headers E (headers r0) body) /\
  cache_control (final v E w request r0) = getHeader r0 "Cache-Control" /\
  (getHeader r0 "Cache-Control" = None ->
   cache_control (final v E w request r0) = None).
Proof.
  intros H.
  destruct (final_cases v E w request r0) as [(tr & msg & Hf)|(tr & data & Hf)];
    rewrite Hf in *; [|discriminate H].
  assert (Hcc : cache_control (failed E (generic_of v) r0 tr msg) = getHeader r0 "Cache-Control").
  { unfold cache_control, getHeader, failed. cbn [response headers].
    now apply header_lookup_json_headers. }
  split; [eexists; split; reflexivity|]. split; [exact Hcc|].
  intros Hnone. now rewrite Hcc.
Qed.

Lemma C10_no_cache_advice_on_failure_witness :
  let w := Sample.world (Some "tok") Sample.unavailable Sample.not_found in
  cache_control (final part_000 Sample.engine w Sample.get Sample.fresh)
  = getHeader Sample.fresh "Cache-Control" /\
  cache_control (final part_000 Sample.engine w Sample.get Sample.fresh) = None.
Proof.
  intros w.
  assert (H : statusCode (response (final part_000 Sample.engine w Sample.get Sample.fresh)) = 500)
    by (vm_compute; reflexivity).
  destruct (C10_no_cache_advice_on_failure part_000 Sample.engine w Sample.get Sample.fresh H)
    as (_ & H1 & H2).
  split; [exact H1|exact (H2 eq_refl)].
Defined.

(** *** Where part_001 and api/gumroad.js fall short of part_000 *)

(** In part_001 a reviews 404 is refused like any other status outside
    200-299. *)
Lemma Part001_reviews_404_refused (E : Engine) (w : World) (request : Request)
    (r0 : ServerResponse) (productRes reviewsRes : Response) :
  configured w ->
  product_returns part_001 w productRes -> reviews_returns part_001 w reviewsRes ->
  ok productRes = true -> status reviewsRes = 404 ->
  let s := final part_001 E w request r0 in
  statusCode (response s) = 500 /\ details s = Some (reviews_refused_detail reviewsRes).
Proof.
  intros Hc Hp Hr Hok H404 s. subst s. unfold final, handler_of.
  assert (Hbad : ok reviewsRes = false) by (unfold ok; now rewrite H404).
  rewrite (Part001_run_reviews_refused E w request r0 _ _ Hc Hp Hr Hok Hbad).
  split; reflexivity.
Qed.

(** In part_001 a product without a rating object ends the run with the
    engine's TypeError, whatever the reviews are. *)
Lemma Part001_unrated_fails (E : Engine) (w : World) (request : Request)
    (r0 : ServerResponse) (productRes reviewsRes : Response) (productData reviewsData : value) :
  configured w ->
  product_returns part_001 w productRes -> reviews_returns part_001 w reviewsRes ->
  ok productRes = true -> ok reviewsRes = true ->
  JSON_parse E (body productRes) = inr productData ->
  JSON_parse E (body reviewsRes) = inr reviewsData ->
  product_payload productData = true -> rated productData = false ->
  let s := final part_001 E w request r0 in
  statusCode (response s) = 500 /\
  details s
  = Some (cannot_read E (own (own productData "product") "rating") "average_rating").
Proof.
  intros Hc Hp Hr Hok Hok' Hpd Hrd Hpay Hunrated s. subst s. unfold final, handler_of.
  rewrite (Part001_run_merged E w request r0 _ _ _ _ Hc Hp Hr Hok Hok' Hpd Hrd).
  rewrite (Part001_responseData_unrated E _ _ Hpay Hunrated).
  split; reflexivity.
Qed.

(** C1 (the defect).  part_001 at a product without reviews: the product
    call returns 200 with a product payload, the reviews call returns 404,
    and the response is HTTP 500 with the reviews status in the detail and
    no reviews field, where part_000 answers HTTP 200 with an empty list. *)
Theorem C1_part_001_refuses_404 :
  let w := Sample.world (Some "tok") (Sample.answer 200 Sample.product_doc) Sample.not_found in
  let s := final part_001 Sample.engine w Sample.get Sample.fresh in
  let s0 := final part_000 Sample.engine w Sample.get Sample.fresh in
  (ok (Sample.answer 200 Sample.product_doc) = true /\ status Sample.not_found = 404) /\
  (statusCode (response s) = 500 /\
   details s = Some "Gumroad Reviews API responded with status 404. Details: Not Found" /\
   field s "reviews" = VUndefined) /\
  (statusCode (response s0) = 200 /\ field s0 "reviews" = VArr []).
Proof. cbv zeta. vm_compute. repeat split. Qed.

(** C2 (the defect).  part_001 and api/gumroad.js at a product that has
    no rating object: both calls return 200, and the response is HTTP 500
    with the engine's TypeError as detail, where part_000 answers HTTP 200
    with both rating fields 0. *)
Theorem C2_part_001_needs_rating :
  let w := Sample.world (Some "tok") (Sample.answer 200 Sample.unrated_doc)
             (Sample.answer 200 Sample.reviews_doc) in
  let s := final part_001 Sample.engine w Sample.get Sample.fresh in
  let s' := final api_gumroad Sample.engine w Sample.get Sample.fresh in
  let s0 := final part_000 Sample.engine w Sample.get Sample.fresh in
  own (own Sample.unrated_doc "product") "rating" = VUndefined /\
  (statusCode (response s) = 500 /\
   details s = Some "Cannot read properties of undefined (reading 'average_rating')") /\
  (statusCode (response s') = 500 /\
   details s' = Some "Cannot read properties of undefined (reading 'average_rating')") /\
  (statusCode (response s0) = 200 /\
   field s0 "rating_average" = VNum 0 /\ field s0 "rating_count" = VNum 0).
Proof. cbv zeta. vm_compute. repeat split. Qed.

(** C9 (the defect).  part_001 and api/gumroad.js at a product payload
    without a permalink: the response is HTTP 200 and its permalink is
    [undefined], so the serialised body has no permalink at all, where
    part_000 sends the default "rdcvzn". *)
Theorem C9_part_001_drops_permalink :
  let w := Sample.world (Some "tok") (Sample.answer 200 Sample.no_permalink_doc)
             (Sample.answer 200 Sample.reviews_doc) in
  let s := final part_001 Sample.engine w Sample.get Sample.fresh in
  let s' := final api_gumroad Sample.engine w Sample.get Sample.fresh in
  let s0 := final part_000 Sample.engine w Sample.get Sample.fresh in
  own (own Sample.no_permalink_doc "product") "permalink" = VUndefined /\
  (statusCode (response s) = 200 /\ field s "permalink" = VUndefined /\
   option_map (mentions "permalink") (sent_bytes Sample.engine s) = Some false) /\
  (statusCode (response s') = 200 /\ field s' "permalink" = VUndefined /\
   option_map (mentions "permalink") (sent_bytes Sample.engine s') = Some false) /\
  (statusCode (response s0) = 200 /\ field s0 "permalink" = VStr "rdcvzn").
Proof. cbv zeta. vm_compute. repeat split. Qed.

(** * Further properties of the handlers *)

Import Shapes.

(** ** The avatar identifier *)

Lemma replace_non_alphanumeric_app (a b : string) :
  replace_non_alphanumeric (a ++ b)
  = replace_non_alphanumeric a ++ replace_non_alphanumeric b.
Proof.
  induction a as [|c a IH]; cbn [append replace_non_alphanumeric]; [reflexivity|].
  destruct (alphanumeric c); cbn [append]; now rewrite IH.
Qed.

Lemma replace_no_alphanumeric (s : string) :
  no_alphanumeric s = true -> replace_non_alphanumeric s = EmptyString.
Proof.
  unfold no_alphanumeric.
  induction s as [|c s IH]; cbn [list_ascii_of_string forallb replace_non_alphanumeric];
    [reflexivity|].
  intros H. apply andb_true_iff in H as [Hc Hs]. apply negb_true_iff in Hc.
  rewrite Hc. now apply IH.
Qed.

Lemma replace_all_alphanumeric (s : string) :
  all_alphanumeric (replace_non_alphanumeric s) = true.
Proof.
  unfold all_alphanumeric.
  induction s as [|c s IH]; cbn [replace_non_alphanumeric list_ascii_of_string forallb];
    [reflexivity|].
  destruct (alphanumeric c) eqn:Hc; cbn [list_ascii_of_string forallb]; [|exact IH].
  now rewrite Hc, IH.
Qed.

(** X1.  The avatar identifier computed from a name consists of
    alphanumeric characters only, is no longer than the name, and
    computing it again from the identifier changes nothing. *)
Theorem X1_avatar_id_alphanumeric (name : string) :
  all_alphanumeric (replace_non_alphanumeric name) = true /\
  (String.length (replace_non_alphanumeric name) <= String.length name)%nat /\
  replace_non_alphanumeric (replace_non_alphanumeric name) = replace_non_alphanumeric name.
Proof.
  split; [apply replace_all_alphanumeric|].
  induction name as [|c name [IH2 IH3]]; cbn [replace_non_alphanumeric String.length].
  - split; [lia|reflexivity].
  - destruct (alphanumeric c) eqn:Hc; cbn [replace_non_alphanumeric String.length].
    + rewrite Hc, IH3. split; [lia|reflexivity].
    + split; [lia|assumption].
Qed.

(** X2.  A name is its own avatar identifier exactly when all its
    characters are alphanumeric. *)
Theorem X2_avatar_id_fixed_point (name : string) :
  replace_non_alphanumeric name = name <-> all_alphanumeric name = true.
Proof.
  split.
  - intros H. rewrite <- H. apply replace_all_alphanumeric.
  - unfold all_alphanumeric.
    induction name as [|c name IH];
      cbn [replace_non_alphanumeric list_ascii_of_string forallb]; [reflexivity|].
    intros H. apply andb_true_iff in H as [Hc Hs]. rewrite Hc. now rewrite IH.
Qed.

(** X3.  Names that differ only by a run of non-alphanumeric characters
    (spaces, punctuation, non-ASCII letters) get the same avatar
    identifier, and a name without any alphanumeric character gets the
    empty one. *)
Theorem X3_avatar_id_collides (first separator last : string) :
  no_alphanumeric separator = true ->
  replace_non_alphanumeric (first ++ separator ++ last)
  = replace_non_alphanumeric (first ++ last) /\
  replace_non_alphanumeric separator = EmptyString.
Proof.
  intros H. rewrite !replace_non_alphanumeric_app, (replace_no_alphanumeric _ H).
  split; reflexivity.
Qed.

Lemma X3_avatar_id_collides_witness :
  replace_non_alphanumeric ("Ann" ++ " - " ++ "B")
  = replace_non_alphanumeric ("Ann" ++ "B") /\
  replace_non_alphanumeric " - " = EmptyString.
Proof. apply (X3_avatar_id_collides "Ann" " - " "B"). reflexivity. Defined.

(** ** What a 200 presupposes *)

Lemma parseFloat_inr (E : Engine) (v r : value) :
  parseFloat E v = inr r -> exists x, r = VNum x.
Proof.
  destruct v; cbn [parseFloat]; intros H; try (injection H as <-; eauto; fail);
    destruct (parseFloat_object E _); try discriminate; injection H as <-; eauto.
Qed.

Lemma member_inr_own (E : Engine) (base v : value) (k : string) :
  member E base k = inr v -> nullish base = false /\ v = own base k.
Proof. destruct base; cbn; intros H; inversion H; auto. Qed.

Lemma member_nullish (E : Engine) (base : value) (k : string) :
  nullish base = true -> member E base k = inl (Error (cannot_read E base k)).
Proof. destruct base; cbn; intros H; try discriminate; reflexivity. Qed.

Lemma review_entry_inv (E : Engine) (r e : value) :
  Part000.review_entry E r = inr e -> review_record r = true /\ entry_of r e.
Proof.
  unfold Part000.review_entry. destruct (nullish r) eqn:Hn.
  - rewrite (member_nullish E r _ Hn). discriminate.
  - rewrite !(member_present E r _ Hn). cbv beta iota delta [and_then].
    destruct r as [ | | | | |items|props]; cbn [own replace_call]; try discriminate.
    destruct (lookup "user_name" props) as [ | | | |name| | ] eqn:Hname; try discriminate.
    intros [= <-]. split.
    + cbn [review_record]. now rewrite Hname.
    + exists name. cbn [own]. rewrite Hname, replace_non_alphanumeric_filter. auto.
Qed.

Lemma map_result_inv (E : Engine) (items out : list value) :
  map_result (Part000.review_entry E) items = inr out ->
  forallb review_record items = true /\ Forall2 entry_of items out.
Proof.
  revert out. induction items as [|r rest IH]; cbn [map_result forallb]; intros out H.
  - injection H as <-. auto.
  - destruct (Part000.review_entry E r) as [?|e] eqn:He; [discriminate|].
    destruct (map_result _ rest) as [?|ys]; [discriminate|].
    injection H as <-. destruct (review_entry_inv E r e He) as [Hr Hre].
    destruct (IH ys eq_refl) as [Hrest Hys]. rewrite Hr, Hrest. auto.
Qed.

Lemma map_call_inv (E : Engine) (v r : value) (f : value -> Result value) :
  map_call E v f = inr r ->
  exists items out, v = VArr items /\ map_result f items = inr out /\ r = VArr out.
Proof.
  destruct v; cbn [map_call]; try discriminate.
  destruct (map_result f items) as [?|out] eqn:Hout; [discriminate|].
  intros [= <-]. eauto.
Qed.

(** The object literal of part_000 evaluates only on a payload with a
    product and a reviews payload with a list of review records. *)
Lemma Part000_responseData_inv (E : Engine) (productData reviewsData data : value) :
  Part000.responseData E productData reviewsData = inr data ->
  exists x items out,
    nullish productData = false /\
    nullish (own productData "product") = false /\
    parseFloat E (or_else (rating_of (own productData "product") "average_rating") (VNum 0))
    = inr (VNum x) /\
    member E reviewsData "reviews" = inr (VArr items) /\
    forallb review_record items = true /\
    Forall2 entry_of items out /\
    data = merged_000 (own productData "product") x out.
Proof.
  unfold Part000.responseData. intros H.
  destruct (nullish productData) eqn:Hpd.
  { rewrite (member_nullish E _ _ Hpd) in H. discriminate. }
  rewrite !(member_present E _ _ Hpd) in H. cbv beta iota delta [and_then] in H.
  destruct (nullish (own productData "product")) eqn:Hp.
  { rewrite (member_nullish E _ _ Hp) in H. discriminate. }
  rewrite !(member_present E _ _ Hp), !optional_member_rating in H.
  destruct (parseFloat E _) as [?|ra] eqn:Hra; [discriminate|].
  destruct (parseFloat_inr E _ _ Hra) as [x ->].
  destruct (member E reviewsData "reviews") as [?|rows] eqn:Hrows; [discriminate|].
  destruct (map_call E rows _) as [?|reviews] eqn:Hmap; [discriminate|].
  destruct (map_call_inv E _ _ _ Hmap) as (items & out & -> & Hout & ->).
  destruct (map_result_inv E items out Hout) as [Hrec Hent].
  injection H as <-. exists x, items, out. repeat split; assumption.
Qed.

Lemma Part001_responseData_inv (E : Engine) (productData reviewsData data : value) :
  Part001.responseData E productData reviewsData = inr data ->
  exists x items out,
    nullish (own productData "product") = false /\
    rated productData = true /\
    parseFloat E (own (own (own productData "product") "rating") "average_rating")
    = inr (VNum x) /\
    member E reviewsData "reviews" = inr (VArr items) /\
    forallb review_record items = true /\
    Forall2 entry_of items out /\
    data = merged_001 (own productData "product") x out.
Proof.
  unfold Part001.responseData. intros H.
  destruct (nullish productData) eqn:Hpd.
  { rewrite (member_nullish E _ _ Hpd) in H. discriminate. }
  rewrite !(member_present E _ _ Hpd) in H. cbv beta iota delta [and_then] in H.
  destruct (nullish (own productData "product")) eqn:Hp.
  { rewrite (member_nullish E _ _ Hp) in H. discriminate. }
  rewrite !(member_present E _ _ Hp) in H.
  destruct (nullish (own (own productData "product") "rating")) eqn:Hr.
  { rewrite (member_nullish E _ _ Hr) in H. discriminate. }
  rewrite !(member_present E _ _ Hr) in H.
  destruct (parseFloat E _) as [?|ra] eqn:Hra; [discriminate|].
  destruct (parseFloat_inr E _ _ Hra) as [x ->].
  destruct (member E reviewsData "reviews") as [?|rows] eqn:Hrows; [discriminate|].
  destruct (map_call E rows _) as [?|reviews] eqn:Hmap; [discriminate|].
  destruct (map_call_inv E _ _ _ Hmap) as (items & out & -> & Hout & ->).
  change (Part001.review_entry E) with (Part000.review_entry E) in Hout.
  destruct (map_result_inv E items out Hout) as [Hrec Hent].
  injection H as <-. exists x, items, out. unfold rated. rewrite Hr.
  repeat split; assumption.
Qed.

Lemma ApiGumroad_responseData_inv (E : Engine) (productData data : value) :
  ApiGumroad.responseData E productData = inr data ->
  exists x,
    nullish (own productData "product") = false /\
    rated productData = true /\
    data = VObj [("sales_count", own (own productData "product") "sales_count");
                 ("rating_average", VNum x);
                 ("rating_count", own (own (own productData "product") "rating") "count");
                 ("formatted_price", own (own productData "product") "formatted_price");
                 ("permalink", own (own productData "product") "permalink")].
Proof.
  unfold ApiGumroad.responseData. intros H.
  destruct (nullish productData) eqn:Hpd.
  { rewrite (member_nullish E _ _ Hpd) in H. discriminate. }
  rewrite !(member_present E _ _ Hpd) in H. cbv beta iota delta [and_then] in H.
  destruct (nullish (own productData "product")) eqn:Hp.
  { rewrite (member_nullish E _ _ Hp) in H. discriminate. }
  rewrite !(member_present E _ _ Hp) in H.
  destruct (nullish (own (own productData "product") "rating")) eqn:Hr.
  { rewrite (member_nullish E _ _ Hr) in H. discriminate. }
  rewrite !(member_present E _ _ Hr) in H.
  destruct (parseFloat E _) as [?|ra] eqn:Hra; [discriminate|].
  destruct (parseFloat_inr E _ _ Hra) as [x ->].
  injection H as <-. exists x. unfold rated. rewrite Hr. auto.
Qed.

Section SuccessInversion.
Variables (E : Engine) (w : World) (request : Request) (r0 : ServerResponse).

Lemma Part000_success_inv :
  statusCode (response (final part_000 E w request r0)) = 200 ->
  exists productRes reviewsRes productData reviewsData data tr,
    configured w /\
    Part000.product_returns w productRes /\ Part000.reviews_returns w reviewsRes /\
    ok productRes = true /\
    reviews_payload part_000 E reviewsRes reviewsData /\
    JSON_parse E (body productRes) = inr productData /\
    Part000.responseData E productData reviewsData = inr data /\
    final part_000 E w request r0 = succeeded E advice_900 r0 tr data.
Proof.
  unfold final, handler_of, configured, reviews_payload. run_handler.
  destruct (env_truthy (env w "GUMROAD_ACCESS_TOKEN")); cbn [negb]; [|discriminate].
  destruct (network w (Part000.productUrl w) (Part000.apiHeaders w)) as [pr|e1];
    destruct (network w (Part000.reviewsUrl w) (Part000.apiHeaders w)) as [rr|e2];
    try discriminate; [|destruct (settles_first w); discriminate].
  destruct (ok pr) eqn:Hok; cbn [negb]; [|discriminate].
  destruct (ok rr) eqn:Hok'.
  - destruct (JSON_parse E (body rr)) as [m|rd] eqn:Hrd; [discriminate|].
    destruct (JSON_parse E (body pr)) as [m|pd] eqn:Hpd; [discriminate|].
    destruct (Part000.responseData E pd rd) as [e|data] eqn:Hdata; [discriminate|].
    intros _. exists pr, rr, pd, rd, data. eexists. repeat split; auto.
  - destruct (status rr =? 404) eqn:H404; [|discriminate].
    destruct (JSON_parse E (body pr)) as [m|pd] eqn:Hpd; [discriminate|].
    destruct (Part000.responseData E pd _) as [e|data] eqn:Hdata; [discriminate|].
    intros _. exists pr, rr, pd, empty_reviews, data. eexists.
    apply Z.eqb_eq in H404. repeat split; auto.
Qed.

Lemma Part001_success_inv :
  statusCode (response (final part_001 E w request r0)) = 200 ->
  exists productRes reviewsRes productData reviewsData data tr,
    configured w /\
    Part001.product_returns w productRes /\ Part001.reviews_returns w reviewsRes /\
    ok productRes = true /\
    reviews_payload part_001 E reviewsRes reviewsData /\
    JSON_parse E (body productRes) = inr productData /\
    Part001.responseData E productData reviewsData = inr data /\
    final part_001 E w request r0 = succeeded E advice_900 r0 tr data.
Proof.
  unfold final, handler_of, configured, reviews_payload. run_handler.
  destruct (env_truthy (env w "GUMROAD_ACCESS_TOKEN")); cbn [negb]; [|discriminate].
  destruct (network w (Part001.productUrl w) (Part001.apiHeaders w)) as [pr|e1];
    destruct (network w (Part001.reviewsUrl w) (Part001.apiHeaders w)) as [rr|e2];
    try discriminate; [|destruct (settles_first w); discriminate].
  destruct (ok pr) eqn:Hok; cbn [negb]; [|discriminate].
  destruct (ok rr) eqn:Hok'; cbn [negb]; [|discriminate].
  destruct (JSON_parse E (body pr)) as [m|pd] eqn:Hpd; [discriminate|].
  destruct (JSON_parse E (body rr)) as [m|rd] eqn:Hrd; [discriminate|].
  destruct (Part001.responseData E pd rd) as [e|data] eqn:Hdata; [discriminate|].
  intros _. exists pr, rr, pd, rd, data. eexists. repeat split; auto.
Qed.

Lemma ApiGumroad_success_inv :
  statusCode (response (final api_gumroad E w request r0)) = 200 ->
  exists productRes productData data tr,
    configured w /\
    ApiGumroad.product_returns w productRes /\
    ok productRes = true /\
    JSON_parse E (body productRes) = inr productData /\
    ApiGumroad.responseData E productData = inr data /\
    final api_gumroad E w request r0 = succeeded E advice_3600 r0 tr data.
Proof.
  unfold final, handler_of, configured. run_handler.
  destruct (env_truthy (env w "GUMROAD_ACCESS_TOKEN")); cbn [negb]; [|discriminate].
  destruct (network w _ _) as [pr|e] eqn:Hp; [|discriminate].
  destruct (ok pr) eqn:Hok; cbn [negb]; [|discriminate].
  destruct (JSON_parse E (body pr)) as [m|pd] eqn:Hpd; [discriminate|].
  destruct (ApiGumroad.responseData E pd) as [e|data] eqn:Hdata; [discriminate|].
  intros _. exists pr, pd, data. eexists. repeat split; auto.
Qed.

End SuccessInversion.

Lemma entry_of_shape (r e : value) : entry_of r e -> review_entry_shape e.
Proof.
  intros (name & _ & ->). split; [reflexivity|].
  exists name. rewrite <- replace_non_alphanumeric_filter. split; reflexivity.
Qed.

Lemma entries_shape (items out : list value) :
  Forall2 entry_of items out -> Forall review_entry_shape out.
Proof.
  induction 1 as [|r e items out Hre _ IH]; constructor; eauto using entry_of_shape.
Qed.

(** X4.  A 200 is never a partial success: a variant answers HTTP 200
    only if the credential is configured, the product call returned a
    status in 200-299 whose body parsed, and (in the variants that call
    the reviews endpoint) the reviews call returned too, with a status in
    200-299, or with 404 in part_000 alone. *)
Theorem X4_success_presupposes (v : variant) (E : Engine) (w : World) (request : Request)
    (r0 : ServerResponse) :
  statusCode (response (final v E w request r0)) = 200 ->
  configured w /\
  (exists productRes productData,
     product_returns v w productRes /\ ok productRes = true /\
     JSON_parse E (body productRes) = inr productData) /\
  (v <> api_gumroad ->
   exists reviewsRes,
     reviews_returns v w reviewsRes /\
     (ok reviewsRes = true \/ (v = part_000 /\ status reviewsRes = 404))).
Proof.
  intros H. destruct v.
  - destruct (Part000_success_inv E w request r0 H)
      as (pr & rr & pd & rd & data & tr & Hc & Hp & Hr & Hok & Hrd & Hpd & _).
    split; [exact Hc|]. split; [eauto|]. intros _. exists rr. split; [exact Hr|].
    destruct Hrd as [[Hok' _]|(_ & H404 & _)]; auto.
  - destruct (Part001_success_inv E w request r0 H)
      as (pr & rr & pd & rd & data & tr & Hc & Hp & Hr & Hok & Hrd & Hpd & _).
    split; [exact Hc|]. split; [eauto|]. intros _. exists rr. split; [exact Hr|].
    destruct Hrd as [[Hok' _]|(Hv & _)]; [auto|discriminate].
  - destruct (ApiGumroad_success_inv E w request r0 H)
      as (pr & pd & data & tr & Hc & Hp & Hok & Hpd & _).
    split; [exact Hc|]. split; [eauto|]. intros Hv. contradiction.
Qed.

Lemma X4_success_presupposes_witness :
  let w := Sample.world (Some "tok") (Sample.answer 200 Sample.product_doc) Sample.not_found in
  configured w /\
  exists reviewsRes,
    reviews_returns part_000 w reviewsRes /\
    (ok reviewsRes = true \/ (part_000 = part_000 /\ status reviewsRes = 404)).
Proof.
  intros w.
  assert (H : statusCode (response (final part_000 Sample.engine w Sample.get Sample.fresh)) = 200)
    by (vm_compute; reflexivity).
  destruct (X4_success_presupposes part_000 Sample.engine w Sample.get Sample.fresh H)
    as (Hc & _ & Hr).
  split; [exact Hc|]. apply Hr. discriminate.
Defined.

(** X5.  The body of every HTTP 200 has the variant's property names in
    the order of the source, a number as [rating_average], and (where
    reviews are fetched) an array as [reviews] whose entries all have the
    four properties name, rating, content, avatar_id, a string name and
    the avatar identifier computed from that name. *)
Theorem X5_success_body_shape (v : variant) (E : Engine) (w : World) (request : Request)
    (r0 : ServerResponse) :
  statusCode (response (final v E w request r0)) = 200 ->
  exists data,
    sent (response (final v E w request r0)) = Some data /\
    keys data = keys_of v /\
    (exists x, own data "rating_average" = VNum x) /\
    (v <> api_gumroad ->
     exists out, own data "reviews" = VArr out /\ Forall review_entry_shape out).
Proof.
  intros H. destruct v.
  - destruct (Part000_success_inv E w request r0 H)
      as (pr & rr & pd & rd & data & tr & _ & _ & _ & _ & _ & _ & Hdata & ->).
    destruct (Part000_responseData_inv E pd rd data Hdata)
      as (x & items & out & _ & _ & _ & _ & _ & Hout & ->).
    eexists. split; [reflexivity|]. split; [reflexivity|]. split; [exists x; reflexivity|].
    intros _. exists out. split; [reflexivity|]. exact (entries_shape _ _ Hout).
  - destruct (Part001_success_inv E w request r0 H)
      as (pr & rr & pd & rd & data & tr & _ & _ & _ & _ & _ & _ & Hdata & ->).
    destruct (Part001_responseData_inv E pd rd data Hdata)
      as (x & items & out & _ & _ & _ & _ & _ & Hout & ->).
    eexists. split; [reflexivity|]. split; [reflexivity|]. split; [exists x; reflexivity|].
    intros _. exists out. split; [reflexivity|]. exact (entries_shape _ _ Hout).
  - destruct (ApiGumroad_success_inv E w request r0 H)
      as (pr & pd & data & tr & _ & _ & _ & _ & Hdata & ->).
    destruct (ApiGumroad_responseData_inv E pd data Hdata) as (x & _ & _ & ->).
    eexists. split; [reflexivity|]. split; [reflexivity|]. split; [exists x; reflexivity|].
    intros Hv. contradiction.
Qed.

Lemma X5_success_body_shape_witness :
  let w := Sample.world (Some "tok") (Sample.answer 200 Sample.product_doc)
             (Sample.answer 200 Sample.reviews_doc) in
  exists data,
    sent (response (final part_001 Sample.engine w Sample.get Sample.fresh)) = Some data /\
    keys data = keys_of part_001.
Proof.
  intros w.
  assert (H : statusCode (response (final part_001 Sample.engine w Sample.get Sample.fresh)) = 200)
    by (vm_compute; reflexivity).
  destruct (X5_success_body_shape part_001 Sample.engine w Sample.get Sample.fresh H)
    as (data & Hsent & Hkeys & _).
  exists data. split; assumption.
Defined.

(** ** The defaults of part_000 *)

Lemma entry_of_functional (r e e' : value) : entry_of r e -> entry_of r e' -> e = e'.
Proof.
  intros (n & Hn & ->) (n' & Hn' & ->). rewrite Hn in Hn'. now injection Hn' as <-.
Qed.

Lemma entries_functional (items out out' : list value) :
  Forall2 entry_of items out -> Forall2 entry_of items out' -> out = out'.
Proof.
  intros H. revert out'. induction H as [|r e items out Hre _ IH]; intros out' H'.
  - now inversion H'.
  - inversion H' as [|? e' ? rest Hre' Hrest]; subst.
    f_equal; eauto using entry_of_functional.
Qed.

Lemma or_else_truthy (a b : value) : truthy b = true -> truthy (or_else a b) = true.
Proof. unfold or_else. destruct (truthy a) eqn:Ha; auto. Qed.

Lemma or_else_cases (a b : value) :
  (truthy a = true /\ or_else a b = a) \/ (truthy a = false /\ or_else a b = b).
Proof. unfold or_else. destruct (truthy a); auto. Qed.

(** X6.  In every HTTP 200 of part_000 the permalink is truthy, hence
    present in the JSON: it is the upstream permalink when that is truthy
    and "rdcvzn" otherwise, so an empty or null upstream permalink is
    replaced as a missing one is; likewise [rating_count] is the upstream
    count when truthy and 0 otherwise. *)
Theorem X6_part_000_defaults (E : Engine) (w : World) (request : Request)
    (r0 : ServerResponse) :
  let s := final part_000 E w request r0 in
  statusCode (response s) = 200 ->
  exists productRes productData,
    product_returns part_000 w productRes /\
    JSON_parse E (body productRes) = inr productData /\
    let p := own productData "product" in
    truthy (field s "permalink") = true /\
    field s "permalink"
    = (if truthy (own p "permalink") then own p "permalink" else VStr "rdcvzn") /\
    field s "rating_count"
    = (if truthy (rating_of p "count") then rating_of p "count" else VNum 0) /\
    (truthy (rating_of p "average_rating") = false -> field s "rating_average" = VNum 0).
Proof.
  intros s H. subst s.
  destruct (Part000_success_inv E w request r0 H)
    as (pr & rr & pd & rd & data & tr & _ & Hp & _ & _ & _ & Hpd & Hdata & ->).
  destruct (Part000_responseData_inv E pd rd data Hdata)
    as (x & items & out & _ & _ & Hx & _ & _ & _ & ->).
  exists pr, pd. split; [exact Hp|]. split; [exact Hpd|]. cbv zeta.
  unfold field, succeeded, merged_000.
  cbn [response sent lookup String.eqb Ascii.eqb Bool.eqb].
  split; [now apply or_else_truthy|]. split; [reflexivity|]. split; [reflexivity|].
  intros Hfalsy. unfold or_else in Hx. rewrite Hfalsy in Hx.
  cbn in Hx. now injection Hx as <-.
Qed.

Lemma X6_part_000_defaults_witness :
  let w := Sample.world (Some "tok") (Sample.answer 200 Sample.no_permalink_doc)
             Sample.not_found in
  truthy (field (final part_000 Sample.engine w Sample.get Sample.fresh) "permalink") = true.
Proof.
  intros w.
  assert (H : statusCode (response (final part_000 Sample.engine w Sample.get Sample.fresh)) = 200)
    by (vm_compute; reflexivity).
  destruct (X6_part_000_defaults Sample.engine w Sample.get Sample.fresh H)
    as (pr & pd & _ & _ & Ht & _).
  exact Ht.
Defined.

(** X7.  part_000 answers HTTP 200 wherever part_001 does, with the same
    calls and log, and with the same headers up to the Content-Length and
    ETag of the body; the two bodies have the same reviews, sales count
    and price, and part_000's permalink and rating count are part_001's
    passed through [|| default]. *)
Theorem X7_part_000_extends_part_001 (E : Engine) (w : World) (request : Request)
    (r0 : ServerResponse) :
  let s1 := final part_001 E w request r0 in
  let s0 := final part_000 E w request r0 in
  statusCode (response s1) = 200 ->
  statusCode (response s0) = 200 /\
  trace s0 = trace s1 /\
  (forall name,
     lowercase name <> "content-length" -> lowercase name <> "etag" ->
     getHeader (response s0) name = getHeader (response s1) name) /\
  field s0 "reviews" = field s1 "reviews" /\
  field s0 "sales_count" = field s1 "sales_count" /\
  field s0 "formatted_price" = field s1 "formatted_price" /\
  field s0 "permalink" = or_else (field s1 "permalink") (VStr "rdcvzn") /\
  field s0 "rating_count" = or_else (field s1 "rating_count") (VNum 0).
Proof.
  intros s1 s0 H. subst s1 s0.
  destruct (Part001_success_inv E w request r0 H)
    as (pr & rr & pd & rd & data & tr & Hc & Hp & Hr & Hok & Hrd & Hpd & Hdata & Hfinal).
  destruct Hrd as [[Hok' Hrd]|(Hv & _)]; [|discriminate].
  destruct (Part001_responseData_inv E pd rd data Hdata)
    as (x & items & out & Hprod & Hrated & Hx & Hrows & Hrec & Hout & ->).
  assert (Hpdn : nullish pd = false).
  { destruct pd; try reflexivity; cbn in Hprod; discriminate. }
  unfold rated in Hrated. apply negb_true_iff in Hrated.
  assert (Hdata0 : exists y,
             Part000.responseData E pd rd = inr (merged_000 (own pd "product") y out)).
  { destruct (map_review_entries E items Hrec) as (out' & H0 & _ & Hout').
    rewrite (entries_functional _ _ _ Hout' Hout) in H0.
    assert (Hy : exists y,
               parseFloat E (or_else (rating_of (own pd "product") "average_rating") (VNum 0))
               = inr (VNum y)).
    { unfold rating_of. rewrite Hrated.
      destruct (or_else_cases (own (own (own pd "product") "rating") "average_rating") (VNum 0))
        as [[_ ->]|[_ ->]]; [eauto|]. eexists. reflexivity. }
    destruct Hy as [y Hy]. exists y.
    unfold Part000.responseData. rewrite !(member_present E _ _ Hpdn).
    cbv beta iota delta [and_then].
    rewrite !(member_present E _ _ Hprod), !optional_member_rating, Hy, Hrows.
    cbv beta iota delta [map_call]. rewrite H0. reflexivity. }
  destruct Hdata0 as [y Hdata0].
  unfold final, handler_of in *.
  rewrite (Part000_run_merged E w request r0 pr rr pd rd Hc Hp Hr Hok Hok' Hpd Hrd), Hdata0.
  rewrite (Part001_run_merged E w request r0 pr rr pd rd Hc Hp Hr Hok Hok' Hpd Hrd), Hdata.
  unfold field, succeeded, merged_000, merged_001, rating_of, getHeader. rewrite Hrated.
  cbn [response sent trace headers statusCode lookup String.eqb Ascii.eqb Bool.eqb].
  repeat split.
  intros name Hl He. now apply json_headers_agree.
Qed.

Lemma X7_part_000_extends_part_001_witness :
  let w := Sample.world (Some "tok") (Sample.answer 200 Sample.no_permalink_doc)
             (Sample.answer 200 Sample.reviews_doc) in
  statusCode (response (final part_000 Sample.engine w Sample.get Sample.fresh)) = 200 /\
  field (final part_000 Sample.engine w Sample.get Sample.fresh) "reviews"
  = field (final part_001 Sample.engine w Sample.get Sample.fresh) "reviews".
Proof.
  intros w.
  assert (H : statusCode (response (final part_001 Sample.engine w Sample.get Sample.fresh)) = 200)
    by (vm_compute; reflexivity).
  destruct (X7_part_000_extends_part_001 Sample.engine w Sample.get Sample.fresh H)
    as (H200 & _ & _ & Hreviews & _).
  split; assumption.
Defined.

(** ** Calls, failures and the log *)

Ltac path_split :=
  repeat match goal with
         | |- context [env_truthy ?t] => destruct (env_truthy t) eqn:?; cbn [negb]
         | |- context [network ?w ?u ?h] => destruct (network w u h) eqn:?
         | |- context [ok ?r] => destruct (ok r) eqn:?; cbn [negb]
         | |- context [status ?r =? 404] => destruct (status r =? 404) eqn:?
         | |- context [JSON_parse ?E ?b] => destruct (JSON_parse E b) eqn:?
         | |- context [Part000.responseData ?E ?a ?b] =>
             destruct (Part000.responseData E a b) eqn:?
         | |- context [Part001.responseData ?E ?a ?b] =>
             destruct (Part001.responseData E a b) eqn:?
         | |- context [ApiGumroad.responseData ?E ?a] =>
             destruct (ApiGumroad.responseData E a) eqn:?
         | |- context [settles_first ?w] => destruct (settles_first w) eqn:?
         end.

(** X8.  With a credential configured, part_000 and part_001 issue
    exactly two calls on every run, whatever the answers: the product URL
    and then its /reviews URL for the configured product identifier
    ("rdcvzn" when the identifier is unset or empty), each with the one
    header Authorization: Bearer <credential>.  api/gumroad.js issues the
    product call alone, for "rdcvzn" whatever identifier is configured. *)
Theorem X8_outbound_calls (v : variant) (E : Engine) (w : World) (request : Request)
    (r0 : ServerResponse) (token : string) :
  env w "GUMROAD_ACCESS_TOKEN" = Some token -> token <> EmptyString ->
  outbound (final v E w request r0) = calls_of v token (env w "GUMROAD_PRODUCT_ID").
Proof.
  intros Ht Hne.
  assert (Htruthy : env_truthy (Some token) = true).
  { destruct token; [contradiction|reflexivity]. }
  destruct v; unfold final, handler_of, outbound, calls_of; run_handler;
    unfold Part000.productUrl, Part000.reviewsUrl, Part000.apiHeaders, Part000.PRODUCT_ID,
      Part001.productUrl, Part001.reviewsUrl, Part001.apiHeaders, Part001.PRODUCT_ID,
      Part000.GUMROAD_ACCESS_TOKEN, Part001.GUMROAD_ACCESS_TOKEN,
      ApiGumroad.productUrl, ApiGumroad.PRODUCT_ID;
    rewrite Ht, Htruthy; cbn [negb env_text];
    destruct (env w "GUMROAD_PRODUCT_ID") as [[|c id]|]; cbn [env_or String.eqb];
    path_split; reflexivity.
Qed.

Lemma X8_outbound_calls_witness :
  let w := Sample.world (Some "tok") Sample.unavailable Sample.unavailable in
  outbound (final part_001 Sample.engine w Sample.get Sample.fresh)
  = [Fetch "https://api.gumroad.com/v2/products/rdcvzn" [("Authorization", "Bearer tok")];
     Fetch "https://api.gumroad.com/v2/products/rdcvzn/reviews"
       [("Authorization", "Bearer tok")]].
Proof.
  intros w.
  apply (X8_outbound_calls part_001 Sample.engine w Sample.get Sample.fresh "tok");
    [reflexivity|discriminate].
Defined.

(** X9.  No exception escapes a handler and every run sends a body, with
    status 200 or 500.  A 500 body is exactly {error, details} with the
    variant's fixed error text, and the last line logged is the error line
    with the same detail. *)
Theorem X9_always_answers (v : variant) (E : Engine) (w : World) (request : Request)
    (r0 : ServerResponse) :
  let s := final v E w request r0 in
  fst (handler_of v E w request (start r0)) = inr tt /\
  (statusCode (response s) = 200 \/
   statusCode (response s) = 500 /\
   exists tr d,
     sent (response s) = Some (VObj [("error", VStr (generic_of v)); ("details", VStr d)]) /\
     trace s = (tr ++ [ConsoleError ["Error in Vercel function:"; d]])%list) /\
  sent (response s) <> None.
Proof.
  cbv zeta.
  destruct v; unfold final, handler_of, generic_of; run_handler; path_split;
    cbn [fst snd response statusCode sent trace];
    (split; [reflexivity|]);
    (split; [|discriminate]);
    first [left; reflexivity | right; split; [reflexivity|]; do 2 eexists; split; reflexivity].
Qed.

(** X10.  A call that fails in transport ends the run with HTTP 500 whose
    detail is the failure's message; the answer of the other call is not
    looked at, and when both calls fail the detail is the message of the
    failure that comes first. *)
Theorem X10_transport_failure (v : variant) (E : Engine) (w : World) (request : Request)
    (r0 : ServerResponse) (e : JsError) :
  configured w ->
  product_outcome v w = Rejected e \/ reviews_outcome v w = Some (Rejected e) ->
  let s := final v E w request r0 in
  statusCode (response s) = 500 /\
  match product_outcome v w, reviews_outcome v w with
  | Rejected e1, Some (Rejected e2) =>
      details s = Some (message match settles_first w with
                                | ProductFirst => e1
                                | ReviewsFirst => e2
                                end)
  | _, _ => details s = Some (message e)
  end.
Proof.
  intros Hc He s. subst s.
  destruct v; unfold final, handler_of, product_outcome, reviews_outcome in *;
    run_handler; unfold ApiGumroad.GUMROAD_ACCESS_TOKEN in *; rewrite Hc; cbn [negb];
    destruct He as [He|He]; try discriminate He;
    try (injection He as He); rewrite ?He;
    path_split; try (split; reflexivity).
  all: try (injection He as <-; split; reflexivity).
Qed.

Lemma X10_transport_failure_witness :
  let w := {| env := env (Sample.world (Some "tok") Sample.not_found Sample.not_found);
              network := fun u _ =>
                if (u =? Sample.product_url)%string
                then Rejected (Error "fetch failed")
                else Resolved (Sample.answer 200 Sample.reviews_doc);
              settles_first := ReviewsFirst |} in
  statusCode (response (final part_000 Sample.engine w Sample.get Sample.fresh)) = 500 /\
  details (final part_000 Sample.engine w Sample.get Sample.fresh) = Some "fetch failed".
Proof.
  intros w.
  assert (Hc : configured w) by reflexivity.
  assert (He : product_outcome part_000 w = Rejected (Error "fetch failed") \/
               reviews_outcome part_000 w = Some (Rejected (Error "fetch failed")))
    by (left; reflexivity).
  exact (X10_transport_failure part_000 Sample.engine w Sample.get Sample.fresh _ Hc He).
Defined.

(** X11.  A product answer in 200-299 whose body is not JSON ends the run
    with HTTP 500, and once the reviews payload has been obtained the
    detail is the parser's message. *)
Theorem X11_product_body_not_json (v : variant) (E : Engine) (w : World) (request : Request)
    (r0 : ServerResponse) (productRes : Response) (msg : string) :
  configured w -> product_returns v w productRes ->
  ok productRes = true -> JSON_parse E (body productRes) = inl msg ->
  let s := final v E w request r0 in
  statusCode (response s) = 500 /\
  (v = api_gumroad -> details s = Some msg) /\
  (forall reviewsRes reviewsData,
     reviews_returns v w reviewsRes -> reviews_payload v E reviewsRes reviewsData ->
     details s = Some msg).
Proof.
  intros Hc Hp Hok Hmsg s. subst s.
  destruct v; unfold final, handler_of; cbn [product_returns reviews_returns] in *;
    unfold reviews_payload; run_handler; rewrite Hc, Hp; cbn [negb].
  - destruct (network w (Part000.reviewsUrl w) (Part000.apiHeaders w)) as [rr|e].
    + rewrite Hok. cbn [negb]. destruct (ok rr) eqn:Hok'.
      * destruct (JSON_parse E (body rr)) as [m|rd] eqn:Hrd; rewrite ?Hmsg.
        -- split; [reflexivity|]. split; [discriminate|].
           intros ? ? [= <-] [[_ H]|(_ & H404 & _)]; [congruence|].
           unfold ok in Hok'. rewrite H404 in Hok'. discriminate.
        -- split; [reflexivity|]. split; [discriminate|]. reflexivity.
      * destruct (status rr =? 404) eqn:H404; rewrite ?Hmsg.
        -- split; [reflexivity|]. split; [discriminate|]. reflexivity.
        -- split; [reflexivity|]. split; [discriminate|].
           intros ? ? [= <-] [[H _]|(_ & H & _)]; [congruence|].
           apply Z.eqb_neq in H404. contradiction.
    + split; [reflexivity|]. split; discriminate.
  - destruct (network w (Part001.reviewsUrl w) (Part001.apiHeaders w)) as [rr|e].
    + rewrite Hok. cbn [negb]. destruct (ok rr) eqn:Hok'; cbn [negb]; rewrite ?Hmsg.
      * split; [reflexivity|]. split; [discriminate|]. reflexivity.
      * split; [reflexivity|]. split; [discriminate|].
        intros ? ? [= <-] [[H _]|(H & _)]; [congruence|discriminate].
    + split; [reflexivity|]. split; discriminate.
  - rewrite Hok, Hmsg. repeat split.
Qed.

Lemma X11_product_body_not_json_witness :
  let w := Sample.world (Some "tok") {| status := 200; body := "<html>" |} Sample.not_found in
  statusCode (response (final part_000 Sample.engine w Sample.get Sample.fresh)) = 500 /\
  details (final part_000 Sample.engine w Sample.get Sample.fresh)
  = Some "Unexpected token in JSON at position 0".
Proof.
  intros w.
  assert (Hc : configured w) by reflexivity.
  assert (Hp : product_returns part_000 w {| status := 200; body := "<html>" |}) by reflexivity.
  assert (Hr : reviews_returns part_000 w Sample.not_found) by reflexivity.
  assert (Hd : reviews_payload part_000 Sample.engine Sample.not_found empty_reviews)
    by (right; repeat split).
  destruct (X11_product_body_not_json part_000 Sample.engine w Sample.get Sample.fresh
              _ "Unexpected token in JSON at position 0" Hc Hp eq_refl eq_refl)
    as (H500 & _ & Hdet).
  split; [exact H500|exact (Hdet _ _ Hr Hd)].
Defined.

(** X12.  With both answers in 200-299 and a product payload, part_000
    and part_001 answer HTTP 200 exactly when the reviews payload holds a
    list under [reviews] and every element of it is a review record: one
    element without a string [user_name] turns the whole response into a
    500.  (part_001 needs the product's rating object as well.) *)
Theorem X12_reviews_must_be_records (v : variant) (E : Engine) (w : World) (request : Request)
    (r0 : ServerResponse) (productRes reviewsRes : Response) (productData reviewsData : value) :
  v <> api_gumroad ->
  configured w -> product_returns v w productRes -> reviews_returns v w reviewsRes ->
  ok productRes = true -> ok reviewsRes = true ->
  JSON_parse E (body productRes) = inr productData ->
  JSON_parse E (body reviewsRes) = inr reviewsData ->
  product_payload productData = true ->
  (v = part_001 -> rated productData = true) ->
  statusCode (response (final v E w request r0)) = 200 <->
  exists items,
    own reviewsData "reviews" = VArr items /\ forallb review_record items = true.
Proof.
  intros Hv Hc Hp Hr Hok Hok' Hpd Hrd Hpay Hrated.
  destruct v; [| |contradiction]; unfold final, handler_of; cbn [product_returns reviews_returns] in *.
  - rewrite (Part000_run_merged E w request r0 _ _ _ _ Hc Hp Hr Hok Hok' Hpd Hrd).
    split.
    + destruct (Part000.responseData E productData reviewsData) as [e|data] eqn:Hdata;
        [discriminate|]. intros _.
      destruct (Part000_responseData_inv E _ _ _ Hdata)
        as (x & items & out & _ & _ & _ & Hrows & Hrec & _).
      exists items. split; [|exact Hrec].
      destruct (member_inr_own E _ _ _ Hrows) as [_ <-]. reflexivity.
    + intros (items & Hitems & Hrec).
      assert (Hrows : member E reviewsData "reviews" = inr (VArr items)).
      { rewrite <- Hitems. apply member_present.
        destruct reviewsData; try reflexivity; discriminate. }
      destruct (Part000_responseData_payload E productData reviewsData Hpay) as (x & _ & ->).
      destruct (reviews_of_records E reviewsData items Hrows Hrec) as (out & _ & -> & _).
      reflexivity.
  - rewrite (Part001_run_merged E w request r0 _ _ _ _ Hc Hp Hr Hok Hok' Hpd Hrd).
    split.
    + destruct (Part001.responseData E productData reviewsData) as [e|data] eqn:Hdata;
        [discriminate|]. intros _.
      destruct (Part001_responseData_inv E _ _ _ Hdata)
        as (x & items & out & _ & _ & _ & Hrows & Hrec & _).
      exists items. split; [|exact Hrec].
      destruct (member_inr_own E _ _ _ Hrows) as [_ <-]. reflexivity.
    + intros (items & Hitems & Hrec).
      assert (Hrows : member E reviewsData "reviews" = inr (VArr items)).
      { rewrite <- Hitems. apply member_present.
        destruct reviewsData; try reflexivity; discriminate. }
      destruct (Part001_responseData_payload E productData reviewsData Hpay (Hrated eq_refl))
        as (x & _ & ->).
      destruct (reviews_of_records E reviewsData items Hrows Hrec) as (out & _ & _ & ->).
      reflexivity.
Qed.

Lemma X12_reviews_must_be_records_witness :
  let w := Sample.world (Some "tok") (Sample.answer 200 Sample.product_doc)
             (Sample.answer 200 Sample.unrated_doc) in
  statusCode (response (final part_000 Sample.engine w Sample.get Sample.fresh)) = 200 <->
  exists items,
    own Sample.unrated_doc "reviews" = VArr items /\ forallb review_record items = true.
Proof.
  intros w.
  assert (Hv : part_000 <> api_gumroad) by discriminate.
  assert (Hc : configured w) by reflexivity.
  assert (Hp : product_returns part_000 w (Sample.answer 200 Sample.product_doc)) by reflexivity.
  assert (Hr : reviews_returns part_000 w (Sample.answer 200 Sample.unrated_doc)) by reflexivity.
  assert (Hpd : JSON_parse Sample.engine (body (Sample.answer 200 Sample.product_doc))
                = inr Sample.product_doc) by (vm_compute; reflexivity).
  assert (Hrd : JSON_parse Sample.engine (body (Sample.answer 200 Sample.unrated_doc))
                = inr Sample.unrated_doc) by (vm_compute; reflexivity).
  assert (Hrated : part_000 = part_001 -> rated Sample.product_doc = true) by discriminate.
  exact (X12_reviews_must_be_records part_000 Sample.engine w Sample.get Sample.fresh
           _ _ _ _ Hv Hc Hp Hr eq_refl eq_refl Hpd Hrd eq_refl Hrated).
Defined.

(** X13.  part_000 never reads the body of a reviews 404: two runs that
    differ only in the bodies of their 404 answers leave the same response
    and the same log. *)
Theorem X13_404_body_unread (E : Engine) (w1 w2 : World) (request : Request)
    (r0 : ServerResponse) (productRes reviewsRes1 reviewsRes2 : Response) :
  env w1 "GUMROAD_ACCESS_TOKEN" = env w2 "GUMROAD_ACCESS_TOKEN" ->
  env w1 "GUMROAD_PRODUCT_ID" = env w2 "GUMROAD_PRODUCT_ID" ->
  product_returns part_000 w1 productRes -> product_returns part_000 w2 productRes ->
  reviews_returns part_000 w1 reviewsRes1 -> reviews_returns part_000 w2 reviewsRes2 ->
  status reviewsRes1 = 404 -> status reviewsRes2 = 404 ->
  final part_000 E w1 request r0 = final part_000 E w2 request r0.
Proof.
  intros Ht Hid Hp1 Hp2 Hr1 Hr2 H1 H2.
  unfold final, handler_of; cbn [product_returns reviews_returns] in *; run_handler.
  unfold Part000.productUrl, Part000.reviewsUrl, Part000.apiHeaders, Part000.PRODUCT_ID,
    Part000.GUMROAD_ACCESS_TOKEN in *.
  rewrite <- ?Ht, <- ?Hid in *.
  destruct (env_truthy (env w1 "GUMROAD_ACCESS_TOKEN")); cbn [negb]; [|reflexivity].
  rewrite Hp1, Hr1, Hp2, Hr2. unfold ok at 2 4. rewrite H1, H2. reflexivity.
Qed.

Lemma X13_404_body_unread_witness :
  let w1 := Sample.world (Some "tok") (Sample.answer 200 Sample.product_doc) Sample.not_found in
  let w2 := Sample.world (Some "tok") (Sample.answer 200 Sample.product_doc)
              {| status := 404; body := "<html>no such page</html>" |} in
  final part_000 Sample.engine w1 Sample.get Sample.fresh
  = final part_000 Sample.engine w2 Sample.get Sample.fresh.
Proof.
  intros w1 w2.
  apply (X13_404_body_unread Sample.engine w1 w2 Sample.get Sample.fresh
           (Sample.answer 200 Sample.product_doc) Sample.not_found
           {| status := 404; body := "<html>no such page</html>" |});
    reflexivity.
Defined.

(** ** The headers of a 200 *)

(** X14.  Apart from the three headers that [response.json] writes
    (Content-Type, Content-Length, ETag), a 200 changes one header only:
    Cache-Control, under any spelling of its name, reads back as the
    variant's advice and replaces whatever the response carried under that
    name; every other header reads back as before. *)
Theorem X14_only_cache_control_set (v : variant) (E : Engine) (w : World) (request : Request)
    (r0 : ServerResponse) (name : string) :
  statusCode (response (final v E w request r0)) = 200 ->
  written_by_json (lowercase name) = false ->
  getHeader (response (final v E w request r0)) name
  = (if (lowercase name =? "cache-control")%string
     then Some (advice_of v)
     else getHeader r0 name).
Proof.
  intros H Hjson.
  destruct (final_cases v E w request r0) as [(tr & msg & Hf)|(tr & data & Hf)];
    rewrite Hf in *; [discriminate H|].
  unfold getHeader, succeeded. cbn [response headers].
  rewrite (header_lookup_json_headers E _ _ _ Hjson). cbn [header_lookup].
  rewrite String.eqb_sym.
  destruct (String.eqb_spec (lowercase name) "cache-control") as [Heq|Hne];
    [reflexivity|].
  now apply header_lookup_remove.
Qed.

Lemma X14_only_cache_control_set_witness :
  let w := Sample.world (Some "tok") (Sample.answer 200 Sample.product_doc) Sample.not_found in
  let r0 := {| headers := [("cache-control", "no-store"); ("x-frame-options", "DENY")];
               statusCode := 200; sent := None |} in
  getHeader (response (final part_000 Sample.engine w Sample.get r0)) "CACHE-CONTROL"
  = Some "s-maxage=900, stale-while-revalidate" /\
  getHeader (response (final part_000 Sample.engine w Sample.get r0)) "X-Frame-Options"
  = Some "DENY".
Proof.
  intros w r0.
  assert (H : statusCode (response (final part_000 Sample.engine w Sample.get r0)) = 200)
    by (vm_compute; reflexivity).
  split.
  - exact (X14_only_cache_control_set part_000 Sample.engine w Sample.get r0
             "CACHE-CONTROL" H eq_refl).
  - exact (X14_only_cache_control_set part_000 Sample.engine w Sample.get r0
             "X-Frame-Options" H eq_refl).
Defined.

(** ** Order of the two parses, and the product-only variant *)

(** X15.  With both answers in 200-299, a reviews body that is not JSON
    ends the run with HTTP 500.  part_000 parses the reviews body first
    and reports its parser message whatever the product body is; part_001
    parses the product body first and reports that body's parser message
    when it is not JSON either. *)
Theorem X15_reviews_body_not_json (v : variant) (E : Engine) (w : World) (request : Request)
    (r0 : ServerResponse) (productRes reviewsRes : Response) (msg : string) :
  v <> api_gumroad ->
  configured w -> product_returns v w productRes -> reviews_returns v w reviewsRes ->
  ok productRes = true -> ok reviewsRes = true ->
  JSON_parse E (body reviewsRes) = inl msg ->
  let s := final v E w request r0 in
  statusCode (response s) = 500 /\
  details s
  = Some match v, JSON_parse E (body productRes) with
         | part_001, inl product_msg => product_msg
         | _, _ => msg
         end.
Proof.
  intros Hv Hc Hp Hr Hok Hok' Hmsg s. subst s.
  destruct v; [| |contradiction]; unfold final, handler_of;
    cbn [product_returns reviews_returns] in *; run_handler;
    rewrite Hc, Hp, Hr, Hok, Hok'; cbn [negb]; rewrite ?Hmsg.
  - split; reflexivity.
  - destruct (JSON_parse E (body productRes)); rewrite ?Hmsg; split; reflexivity.
Qed.

Lemma X15_reviews_body_not_json_witness :
  let w := Sample.world (Some "tok") {| status := 200; body := "<html>" |}
             {| status := 200; body := "oops" |} in
  statusCode (response (final part_000 Sample.engine w Sample.get Sample.fresh)) = 500 /\
  details (final part_000 Sample.engine w Sample.get Sample.fresh)
  = Some "Unexpected token in JSON at position 0".
Proof.
  intros w.
  assert (Hv : part_000 <> api_gumroad) by discriminate.
  assert (Hc : configured w) by reflexivity.
  assert (Hp : product_returns part_000 w {| status := 200; body := "<html>" |}) by reflexivity.
  assert (Hr : reviews_returns part_000 w {| status := 200; body := "oops" |}) by reflexivity.
  exact (X15_reviews_body_not_json part_000 Sample.engine w Sample.get Sample.fresh
           _ _ "Unexpected token in JSON at position 0" Hv Hc Hp Hr eq_refl eq_refl eq_refl).
Defined.

Lemma lookup_without_reviews (k : string) (a b c d e f : value) :
  k <> "reviews" ->
  lookup k [("sales_count", a); ("rating_average", b); ("rating_count", c);
            ("formatted_price", d); ("permalink", e)]
  = lookup k [("sales_count", a); ("rating_average", b); ("rating_count", c);
              ("formatted_price", d); ("permalink", e); ("reviews", f)].
Proof.
  intros Hk. cbn [lookup].
  repeat match goal with
         | |- context [(k =? ?n)%string] => destruct (String.eqb_spec k n); try reflexivity
         end.
  contradiction.
Qed.

(** X16.  When no product identifier is configured, api/gumroad.js
    answers HTTP 200 wherever part_001 does, and its body is part_001's
    without the reviews: every other property reads the same. *)
Theorem X16_product_only_agrees (E : Engine) (w : World) (request : Request)
    (r0 : ServerResponse) (k : string) :
  env_or (env w "GUMROAD_PRODUCT_ID") "rdcvzn" = "rdcvzn" ->
  statusCode (response (final part_001 E w request r0)) = 200 ->
  k <> "reviews" ->
  statusCode (response (final api_gumroad E w request r0)) = 200 /\
  field (final api_gumroad E w request r0) k = field (final part_001 E w request r0) k /\
  field (final api_gumroad E w request r0) "reviews" = VUndefined.
Proof.
  intros Hid H Hk.
  destruct (Part001_success_inv E w request r0 H)
    as (pr & rr & pd & rd & data & tr & Hc & Hp & Hr & Hok & Hrd & Hpd & Hdata & Hfinal).
  destruct (Part001_responseData_inv E pd rd data Hdata)
    as (x & items & out & Hprod & Hrated & Hx & _ & _ & _ & ->).
  assert (Hpdn : nullish pd = false).
  { destruct pd; try reflexivity; cbn in Hprod; discriminate. }
  unfold rated in Hrated. apply negb_true_iff in Hrated.
  assert (Hp' : ApiGumroad.product_returns w pr).
  { unfold ApiGumroad.product_returns, ApiGumroad.productUrl, ApiGumroad.PRODUCT_ID.
    unfold Part001.product_returns, Part001.productUrl, Part001.PRODUCT_ID,
      Part001.apiHeaders in Hp.
    rewrite Hid in Hp. exact Hp. }
  assert (Hdata' : ApiGumroad.responseData E pd
                   = inr (VObj [("sales_count", own (own pd "product") "sales_count");
                                ("rating_average", VNum x);
                                ("rating_count", own (own (own pd "product") "rating") "count");
                                ("formatted_price", own (own pd "product") "formatted_price");
                                ("permalink", own (own pd "product") "permalink")])).
  { unfold ApiGumroad.responseData. rewrite !(member_present E _ _ Hpdn).
    cbv beta iota delta [and_then].
    rewrite !(member_present E _ _ Hprod), !(member_present E _ _ Hrated), Hx.
    reflexivity. }
  rewrite Hfinal. unfold final, handler_of.
  rewrite (ApiGumroad_run_merged E w request r0 pr pd Hc Hp' Hok Hpd), Hdata'.
  unfold field, succeeded, merged_001. cbn [response sent statusCode].
  split; [reflexivity|]. split; [|reflexivity].
  now apply lookup_without_reviews.
Qed.

Lemma X16_product_only_agrees_witness :
  let w := Sample.world (Some "tok") (Sample.answer 200 Sample.product_doc)
             (Sample.answer 200 Sample.reviews_doc) in
  statusCode (response (final api_gumroad Sample.engine w Sample.get Sample.fresh)) = 200 /\
  field (final api_gumroad Sample.engine w Sample.get Sample.fresh) "permalink"
  = field (final part_001 Sample.engine w Sample.get Sample.fresh) "permalink".
Proof.
  intros w.
  assert (H : statusCode (response (final part_001 Sample.engine w Sample.get Sample.fresh)) = 200)
    by (vm_compute; reflexivity).
  assert (Hk : "permalink" <> "reviews") by discriminate.
  destruct (X16_product_only_agrees Sample.engine w Sample.get Sample.fresh "permalink"
              eq_refl H Hk) as (H200 & Hfield & _).
  split; assumption.
Defined.
